(** * The node's local wallet (shared/services/wallet/local-wallet.go)

    A shallow embedding of [LocalWallet]: the wallet store record, the
    in-memory facade, the store file on disk, and the lifecycle methods
    [Initialize], [Recover], [TestRecovery], [Save], [Delete], [Reload],
    [loadStore] and [initializeStore].

    The methods mutate the receiver and touch one file, so they are written
    in a small state monad over a [World] (disk and facade).  Go's
    [(value, error)] results are kept as pairs: the source assigns the
    value to a field of the receiver before it looks at the error, and
    several properties below depend on exactly that order. *)

From Stdlib Require Import ZArith NArith Strings.Byte Ascii String List DecimalString.
From stdpp Require Import base option gmap strings list fin_maps.
Import ListNotations.

Local Open Scope string_scope.
Set Warnings "-register-all".

(** ** Go values used by the wallet *)

(** Go's [error] values as the file builds them: [errors.New(msg)],
    [fmt.Errorf(msg + ": %w", err)], and the [*fs.PathError] the [os]
    package returns. *)
Inductive error : Type :=
| errors_New (msg : string)
| Errorf_w (msg : string) (err : error)
| PathError (op path : string) (err : error).

#[global] Instance error_eq_dec : EqDecision error.
Proof. solve_decision. Defined.

(** [err.Error()] *)
Fixpoint Error (e : error) : string :=
  match e with
  | errors_New msg => msg
  | Errorf_w msg err => msg ++ ": " ++ Error err
  | PathError op path err => op ++ " " ++ path ++ ": " ++ Error err
  end.

#[global] Instance byte_eq_dec : EqDecision byte := Byte.byte_eq_dec.

(** A decoded JSON value.  An object keeps its members in the order of the
    text, duplicates included, because the decoder assigns them one after
    the other.  The wallet only needs integral numbers (its numeric fields
    are [uint]). *)
Inductive json : Type :=
| JNull
| JBool (b : bool)
| JNumber (n : Z)
| JString (s : string)
| JArray (l : list json)
| JObject (members : list (string * json)).

(** ** External libraries

    bip39, hdkeychain, the keystore-v4 encryptor, the JSON codec and the
    uuid package are used through their interfaces only.  Every result has
    the shape of the Go signature: a value and an optional error. *)
Class Libraries : Type := {
  (* github.com/tyler-smith/go-bip39 *)
  bip39_NewMnemonic : list byte -> string * option error;
  bip39_IsMnemonicValid : string -> bool;
  bip39_NewSeed : string -> string -> list byte;
  (* github.com/btcsuite/btcd/btcutil/hdkeychain, on MainNetParams *)
  ExtendedKey : Type;
  hdkeychain_NewMaster : list byte -> option ExtendedKey * option error;
  (* github.com/wealdtech/go-eth2-wallet-encryptor-keystorev4; the third
     argument of Encrypt is the salt and IV it draws *)
  encryptor_Name : string;
  encryptor_Version : N;
  encryptor_Encrypt :
    list byte -> string -> list byte -> option (gmap string json) * option error;
  encryptor_Decrypt :
    option (gmap string json) -> string -> option (list byte) * option error;
  (* github.com/goccy/go-json: the text of a value, and the value of a text *)
  json_text : json -> list byte * option error;
  json_parse : list byte -> json + error;
  (* github.com/google/uuid *)
  UUID : Type;
  uuid_Nil : UUID;
  uuid_String : UUID -> string;
  uuid_Parse : string -> option UUID;
  (* key material held in the caches *)
  PrivateKey : Type;
  BLSPrivateKey : Type;
  Keystore : Type
}.

(** ** Config *)

Definition EntropyBits : N := 256.
Definition FileMode : N := 384.  (* 0600 *)
Definition DefaultNodeKeyPath : string := "m/44'/60'/0'/0/%d".
Definition LedgerLiveNodeKeyPath : string := "m/44'/60'/%d/0/0".
Definition MyEtherWalletNodeKeyPath : string := "m/44'/60'/0'/%d".

(** Go's [uint] on the supported platforms is 64 bits wide. *)
Definition uint_max : Z := 2 ^ 64 - 1.

(** ** The file system at the wallet's path

    A path either has no entry ([None] in the map), cannot be examined
    (stat fails with an error other than not-exist), or names a regular
    file with permission bits and contents. *)
Inductive fentry : Type :=
| Unreachable (e : error)
| File (perm : N) (data : list byte).

(** How [os.WriteFile] can go wrong.  The Go documentation of
    [os.WriteFile]: the file is created with [perm] if it does not exist,
    otherwise truncated before writing without changing permissions; and
    since it takes several system calls, a failure mid-operation can leave
    the file in a partially written state. *)
Inductive write_outcome : Type :=
| WriteCompletes
| OpenFails (e : error)
| WriteFailsAfter (n : nat) (e : error).

Definition ErrNotExist : error := errors_New "file does not exist".

(** [os.IsNotExist] looks through the [PathError]. *)
Definition os_IsNotExist (e : error) : bool :=
  match e with
  | PathError _ _ u => bool_decide (u = ErrNotExist)
  | _ => bool_decide (e = ErrNotExist)
  end.

Section Wallet.
Context `{L : Libraries}.

(** Encrypted wallet store *)
Record localWalletStore : Type := mkStore {
  Crypto : option (gmap string json);   (* json:"crypto" *)
  Name : string;                        (* json:"name" *)
  Version : N;                          (* json:"version" *)
  StoreUUID : UUID;                     (* json:"uuid" *)
  DerivationPath : string;              (* json:"derivationPath,omitempty" *)
  WalletIndex : N;                      (* json:"walletIndex,omitempty" *)
  NextAccount : N                       (* json:"next_account" *)
}.

(** [new(localWalletStore)]: every field at its zero value. *)
Definition new_localWalletStore : localWalletStore :=
  mkStore None "" 0%N uuid_Nil "" 0%N 0%N.

(** LocalWallet.  The password manager and the encryptor are collaborators
    reached through [Env] and [Libraries]; the other fields are the
    struct's. *)
Record LocalWallet : Type := mkWallet {
  walletPath : string;
  chainID : Z;
  ws : option localWalletStore;
  seed : option (list byte);
  mk : option ExtendedKey;
  nodeKey : option PrivateKey;
  nodeKeyPath : string;
  validatorKeys : gmap N BLSPrivateKey;
  keystores : gmap string Keystore;
  maxFee : option Z;
  maxPriorityFee : option Z;
  gasLimit : N
}.

(** What the outside world answers during one method call: the password
    manager, the entropy source, the uuid generator, the encryptor's
    randomness, and whether the I/O calls succeed. *)
Record Env : Type := mkEnv {
  GetPassword : string * option error;
  NewEntropy : N -> list byte * option error;
  uuid_New : UUID;
  encrypt_rand : list byte;
  read_fault : option error;
  write_fault : write_outcome;
  remove_fault : option error
}.

Record World : Type := mkWorld {
  disk : gmap string fentry;
  wallet : LocalWallet
}.

(** ** The [os] calls of the file

    Each takes the world's answers [env] and the disk, and returns what the
    Go call returns (and the new disk where it writes). *)

Definition os_ReadFile (env : Env) (d : gmap string fentry) (name : string)
  : list byte * option error :=
  match d !! name with
  | None => ([], Some (PathError "open" name ErrNotExist))
  | Some (Unreachable e) => ([], Some (PathError "open" name e))
  | Some (File _ data) =>
      match read_fault env with
      | Some e => ([], Some (PathError "read" name e))
      | None => (data, None)
      end
  end.

Definition os_Stat (d : gmap string fentry) (name : string) : option error :=
  match d !! name with
  | None => Some (PathError "stat" name ErrNotExist)
  | Some (Unreachable e) => Some (PathError "stat" name e)
  | Some (File _ _) => None
  end.

Definition os_Remove (env : Env) (d : gmap string fentry) (name : string)
  : gmap string fentry * option error :=
  match d !! name with
  | None => (d, Some (PathError "remove" name ErrNotExist))
  | Some (Unreachable e) => (d, Some (PathError "remove" name e))
  | Some (File _ _) =>
      match remove_fault env with
      | Some e => (d, Some (PathError "remove" name e))
      | None => (delete name d, None)
      end
  end.

(** The permission bits of the file [os.WriteFile] opens: those of the
    existing file, or [perm] for a file it creates. *)
Definition opened_perm (d : gmap string fentry) (name : string) (perm : N) : N :=
  match d !! name with
  | Some (File p _) => p
  | _ => perm
  end.

Definition os_WriteFile (env : Env) (d : gmap string fentry) (name : string)
    (data : list byte) (perm : N) : gmap string fentry * option error :=
  match d !! name with
  | Some (Unreachable e) => (d, Some (PathError "open" name e))
  | _ =>
      match write_fault env with
      | OpenFails e => (d, Some (PathError "open" name e))
      | WriteFailsAfter n e =>
          (<[name := File (opened_perm d name perm) (take n data)]> d,
           Some (PathError "write" name e))
      | WriteCompletes =>
          (<[name := File (opened_perm d name perm) data]> d, None)
      end
  end.

(** ** The method monad: state passing over the world *)

Definition Op (A : Type) : Type := World -> World * A.

#[global] Instance Op_ret : MRet Op := fun A a W => (W, a).
#[global] Instance Op_bind : MBind Op :=
  fun A B f m W => let (W', a) := m W in f a W'.

Definition get_wallet : Op LocalWallet := fun W => (W, wallet W).
Definition get_disk : Op (gmap string fentry) := fun W => (W, disk W).
Definition put_disk (d : gmap string fentry) : Op unit :=
  fun W => (mkWorld d (wallet W), tt).
Definition modify_wallet (f : LocalWallet -> LocalWallet) : Op unit :=
  fun W => (mkWorld (disk W) (f (wallet W)), tt).

(** Assignments to the receiver's fields. *)
Definition with_ws (v : option localWalletStore) (w : LocalWallet) : LocalWallet :=
  mkWallet (walletPath w) (chainID w) v (seed w) (mk w) (nodeKey w)
    (nodeKeyPath w) (validatorKeys w) (keystores w) (maxFee w)
    (maxPriorityFee w) (gasLimit w).
Definition with_seed (v : option (list byte)) (w : LocalWallet) : LocalWallet :=
  mkWallet (walletPath w) (chainID w) (ws w) v (mk w) (nodeKey w)
    (nodeKeyPath w) (validatorKeys w) (keystores w) (maxFee w)
    (maxPriorityFee w) (gasLimit w).
Definition with_mk (v : option ExtendedKey) (w : LocalWallet) : LocalWallet :=
  mkWallet (walletPath w) (chainID w) (ws w) (seed w) v (nodeKey w)
    (nodeKeyPath w) (validatorKeys w) (keystores w) (maxFee w)
    (maxPriorityFee w) (gasLimit w).
Definition with_keystores (v : gmap string Keystore) (w : LocalWallet) : LocalWallet :=
  mkWallet (walletPath w) (chainID w) (ws w) (seed w) (mk w) (nodeKey w)
    (nodeKeyPath w) (validatorKeys w) v (maxFee w)
    (maxPriorityFee w) (gasLimit w).
Definition with_DerivationPath (p : string) (s : localWalletStore) : localWalletStore :=
  mkStore (Crypto s) (Name s) (Version s) (StoreUUID s) p (WalletIndex s)
    (NextAccount s).

(** ** JSON encoding of the store, from the struct tags

    [json.Unmarshal] into a struct walks the members of the object in
    order; a member whose name matches a field's tag (exactly, or up to
    letter case) is decoded into that field, other members are skipped; a
    [null] leaves a string, number or struct field as it is; a value of the
    wrong type leaves the field as it is and the earliest such error is
    returned once the whole object has been read. *)

Inductive store_field : Type :=
| FCrypto | FName | FVersion | FUUID | FDerivationPath | FWalletIndex
| FNextAccount.

Definition store_fields : list store_field :=
  [FCrypto; FName; FVersion; FUUID; FDerivationPath; FWalletIndex; FNextAccount].

Definition tag (f : store_field) : string :=
  match f with
  | FCrypto => "crypto"
  | FName => "name"
  | FVersion => "version"
  | FUUID => "uuid"
  | FDerivationPath => "derivationPath"
  | FWalletIndex => "walletIndex"
  | FNextAccount => "next_account"
  end.

Definition lower_ascii (c : ascii) : ascii :=
  let n := nat_of_ascii c in
  if (65 <=? n)%nat && (n <=? 90)%nat then ascii_of_nat (n + 32) else c.

Fixpoint lower (s : string) : string :=
  match s with
  | EmptyString => EmptyString
  | String c r => String (lower_ascii c) (lower r)
  end.

(** The field a member name selects, if any. *)
Definition field_named (k : string) : option store_field :=
  find (fun f => String.eqb (lower (tag f)) (lower k)) store_fields.

Definition UnmarshalTypeError (f : store_field) : error :=
  errors_New ("json: cannot unmarshal value into Go struct field localWalletStore."
              ++ tag f).

Definition decode_uint (f : store_field) (v : json) (old : N) : N * option error :=
  match v with
  | JNull => (old, None)
  | JNumber n =>
      if (0 <=? n)%Z && (n <=? uint_max)%Z then (Z.to_N n, None)
      else (old, Some (UnmarshalTypeError f))
  | _ => (old, Some (UnmarshalTypeError f))
  end.

Definition decode_string (f : store_field) (v : json) (old : string)
  : string * option error :=
  match v with
  | JNull => (old, None)
  | JString s => (s, None)
  | _ => (old, Some (UnmarshalTypeError f))
  end.

(** Into a [map[string]interface{}]: [null] makes the map nil; an object
    adds its members to the map (a fresh one if it was nil), later
    duplicates overwriting earlier ones. *)
Definition decode_map (f : store_field) (v : json) (old : option (gmap string json))
  : option (gmap string json) * option error :=
  match v with
  | JNull => (None, None)
  | JObject ms =>
      (Some (foldl (fun m kv => <[kv.1 := kv.2]> m) (default ∅ old) ms), None)
  | _ => (old, Some (UnmarshalTypeError f))
  end.

Definition decode_uuid (f : store_field) (v : json) (old : UUID) : UUID * option error :=
  match v with
  | JNull => (old, None)
  | JString s =>
      match uuid_Parse s with
      | Some u => (u, None)
      | None => (old, Some (errors_New ("invalid UUID " ++ s)))
      end
  | _ => (old, Some (UnmarshalTypeError f))
  end.

Definition decode_member (s : localWalletStore) (kv : string * json)
  : localWalletStore * option error :=
  let (k, v) := kv in
  match field_named k with
  | None => (s, None)
  | Some FCrypto =>
      let (c, e) := decode_map FCrypto v (Crypto s) in
      (mkStore c (Name s) (Version s) (StoreUUID s) (DerivationPath s)
         (WalletIndex s) (NextAccount s), e)
  | Some FName =>
      let (n, e) := decode_string FName v (Name s) in
      (mkStore (Crypto s) n (Version s) (StoreUUID s) (DerivationPath s)
         (WalletIndex s) (NextAccount s), e)
  | Some FVersion =>
      let (n, e) := decode_uint FVersion v (Version s) in
      (mkStore (Crypto s) (Name s) n (StoreUUID s) (DerivationPath s)
         (WalletIndex s) (NextAccount s), e)
  | Some FUUID =>
      let (u, e) := decode_uuid FUUID v (StoreUUID s) in
      (mkStore (Crypto s) (Name s) (Version s) u (DerivationPath s)
         (WalletIndex s) (NextAccount s), e)
  | Some FDerivationPath =>
      let (p, e) := decode_string FDerivationPath v (DerivationPath s) in
      (with_DerivationPath p s, e)
  | Some FWalletIndex =>
      let (n, e) := decode_uint FWalletIndex v (WalletIndex s) in
      (mkStore (Crypto s) (Name s) (Version s) (StoreUUID s) (DerivationPath s)
         n (NextAccount s), e)
  | Some FNextAccount =>
      let (n, e) := decode_uint FNextAccount v (NextAccount s) in
      (mkStore (Crypto s) (Name s) (Version s) (StoreUUID s) (DerivationPath s)
         (WalletIndex s) n, e)
  end.

Definition first_error (a b : option error) : option error :=
  match a with
  | Some _ => a
  | None => b
  end.

Fixpoint decode_members (ms : list (string * json)) (s : localWalletStore)
  : localWalletStore * option error :=
  match ms with
  | [] => (s, None)
  | kv :: rest =>
      let (s1, e1) := decode_member s kv in
      let (s2, e2) := decode_members rest s1 in
      (s2, first_error e1 e2)
  end.

(** [json.Unmarshal(data, s)] for [s *localWalletStore]. *)
Definition json_Unmarshal (data : list byte) (s : localWalletStore)
  : localWalletStore * option error :=
  match json_parse data with
  | inr e => (s, Some e)
  | inl JNull => (s, None)
  | inl (JObject ms) => decode_members ms s
  | inl _ =>
      (s, Some (errors_New "json: cannot unmarshal value into Go value of type wallet.localWalletStore"))
  end.

(** The object [json.Marshal] writes for a store: the fields in
    declaration order, [omitempty] ones left out at their zero value, a
    nil map as [null]. *)
Definition encode_store (s : localWalletStore) : json :=
  JObject
    ([ (tag FCrypto,
        match Crypto s with
        | None => JNull
        | Some m => JObject (map_to_list m)
        end);
       (tag FName, JString (Name s));
       (tag FVersion, JNumber (Z.of_N (Version s)));
       (tag FUUID, JString (uuid_String (StoreUUID s))) ]
     ++ (if String.eqb (DerivationPath s) "" then []
         else [(tag FDerivationPath, JString (DerivationPath s))])
     ++ (if N.eqb (WalletIndex s) 0 then []
         else [(tag FWalletIndex, JNumber (Z.of_N (WalletIndex s)))])
     ++ [ (tag FNextAccount, JNumber (Z.of_N (NextAccount s))) ]).

(** [json.Marshal(w.ws)] for [w.ws *localWalletStore]; a nil pointer is
    written as [null]. *)
Definition json_Marshal (s : option localWalletStore) : list byte * option error :=
  json_text (match s with
             | None => JNull
             | Some s => encode_store s
             end).

(** ** The methods of [LocalWallet] *)

Definition not_nil {A : Type} (p : option A) : bool :=
  match p with
  | Some _ => true
  | None => false
  end.

(** Check if the wallet has been initialized *)
Definition IsInitialized (w : LocalWallet) : bool :=
  not_nil (ws w) && not_nil (seed w) && not_nil (mk w).

(** In-place update of the store [w.ws] points to. *)
Definition modify_ws (f : localWalletStore -> localWalletStore) : Op unit :=
  modify_wallet (fun w => with_ws (f <$> ws w) w).

(** Load the wallet store from disk and decrypt it *)
Definition loadStore (env : Env) : Op (bool * option error) :=
  w ← get_wallet;
  d ← get_disk;
  (* Read wallet store from disk; cancel if not found *)
  let (wsBytes, err) := os_ReadFile env d (walletPath w) in
  if err is Some _ then mret (false, None) else
  (* Decode wallet store *)
  let (s, err) := json_Unmarshal wsBytes new_localWalletStore in
  modify_wallet (with_ws (Some s));;
  if err is Some e then mret (false, Some (Errorf_w "Could not decode wallet" e)) else
  (* Upgrade legacy wallets to include derivation paths *)
  (if String.eqb (DerivationPath s) ""
   then modify_ws (with_DerivationPath DefaultNodeKeyPath)
   else mret tt);;
  (* Get wallet password *)
  let (password, err) := GetPassword env in
  if err is Some e then mret (false, Some (Errorf_w "Could not get wallet password" e)) else
  (* Decrypt seed *)
  w ← get_wallet;
  let (sd, err) := encryptor_Decrypt (ws w ≫= Crypto) password in
  modify_wallet (with_seed sd);;
  if err is Some e then mret (false, Some (Errorf_w "Could not decrypt wallet seed" e)) else
  (* Create master key *)
  let (k, err) := hdkeychain_NewMaster (default [] sd) in
  modify_wallet (with_mk k);;
  if err is Some e then mret (false, Some (Errorf_w "Could not create wallet master key" e)) else
  mret (true, None).

(** Reloads wallet from disk *)
Definition Reload (env : Env) : Op (option error) :=
  r ← loadStore env;
  mret r.2.

(** Attempt to initialize the wallet if not initialized and return status *)
Definition GetInitialized (env : Env) : Op (bool * option error) :=
  w ← get_wallet;
  if IsInitialized w then mret (true, None) else loadStore env.

(** Create new wallet: the facade is returned only when the load reports
    no error. *)
Definition int64_of_uint (n : N) : Z :=
  if (Z.of_N n <? 2 ^ 63)%Z then Z.of_N n else (Z.of_N n - 2 ^ 64)%Z.

Definition NewLocalWallet (env : Env) (d : gmap string fentry) (path : string)
    (chainId : N) (fee priorityFee : option Z) (gas : N)
  : gmap string fentry * (option LocalWallet * option error) :=
  let w := mkWallet path (int64_of_uint chainId) None None None None "" ∅ ∅
             fee priorityFee gas in
  let (W, r) := loadStore env (mkWorld d w) in
  match r.2 with
  | Some e => (disk W, (None, Some e))
  | None => (disk W, (Some (wallet W), None))
  end.

(** Gets the wallet's chain ID *)
Definition GetChainID (w : LocalWallet) : Z := chainID w.

(** Add a keystore to the wallet *)
Definition AddKeystore (name : string) (ks : Keystore) : Op unit :=
  modify_wallet (fun w => with_keystores (<[name := ks]> (keystores w)) w).

(** Initialize the encrypted wallet store from a mnemonic *)
Definition initializeStore (env : Env) (derivationPath : string)
    (walletIndex : N) (mnemonic : string) : Op (option error) :=
  (* Generate seed *)
  let sd := bip39_NewSeed mnemonic "" in
  modify_wallet (with_seed (Some sd));;
  (* Create master key *)
  let (k, err) := hdkeychain_NewMaster sd in
  modify_wallet (with_mk k);;
  if err is Some e then mret (Some (Errorf_w "Could not create wallet master key" e)) else
  (* Get wallet password *)
  let (password, err) := GetPassword env in
  if err is Some e then mret (Some (Errorf_w "Could not get wallet password" e)) else
  (* Encrypt seed *)
  let (encryptedSeed, err) := encryptor_Encrypt sd password (encrypt_rand env) in
  if err is Some e then mret (Some (Errorf_w "Could not encrypt wallet seed" e)) else
  (* Create wallet store *)
  modify_wallet (with_ws (Some
    (mkStore encryptedSeed encryptor_Name encryptor_Version (uuid_New env)
       derivationPath walletIndex 0%N)));;
  mret None.

Definition ErrAlreadyInitialized : error :=
  errors_New "Wallet is already initialized".
Definition ErrNotInitialized : error :=
  errors_New "Wallet is not initialized".
Definition ErrInvalidMnemonic (mnemonic : string) : error :=
  errors_New ("Invalid mnemonic '" ++ mnemonic ++ "'").

(** Initialize the wallet from a random seed *)
Definition Initialize (env : Env) (derivationPath : string) (walletIndex : N)
  : Op (string * option error) :=
  w ← get_wallet;
  (* Check wallet is not initialized *)
  if IsInitialized w then mret ("", Some ErrAlreadyInitialized) else
  (* Generate mnemonic entropy *)
  let (entropy, err) := NewEntropy env EntropyBits in
  if err is Some e
  then mret ("", Some (Errorf_w "Could not generate wallet mnemonic entropy bytes" e))
  else
  (* Generate mnemonic *)
  let (mnemonic, err) := bip39_NewMnemonic entropy in
  if err is Some e
  then mret ("", Some (Errorf_w "Could not generate wallet mnemonic" e))
  else
  (* Initialize wallet store *)
  err ← initializeStore env derivationPath walletIndex mnemonic;
  if err is Some e then mret ("", Some e) else
  mret (mnemonic, None).

(** Recover a wallet from a mnemonic *)
Definition Recover (env : Env) (derivationPath : string) (walletIndex : N)
    (mnemonic : string) : Op (option error) :=
  w ← get_wallet;
  (* Check wallet is not initialized *)
  if IsInitialized w then mret (Some ErrAlreadyInitialized) else
  (* Check mnemonic *)
  if negb (bip39_IsMnemonicValid mnemonic) then mret (Some (ErrInvalidMnemonic mnemonic)) else
  (* Initialize wallet store *)
  err ← initializeStore env derivationPath walletIndex mnemonic;
  if err is Some e then mret (Some e) else
  mret None.

(** Recover a wallet from a mnemonic - only used for testing mnemonics *)
Definition TestRecovery (env : Env) (derivationPath : string) (walletIndex : N)
    (mnemonic : string) : Op (option error) :=
  (* Check mnemonic *)
  if negb (bip39_IsMnemonicValid mnemonic) then mret (Some (ErrInvalidMnemonic mnemonic)) else
  (* Generate seed *)
  let sd := bip39_NewSeed mnemonic "" in
  modify_wallet (with_seed (Some sd));;
  (* Create master key *)
  let (k, err) := hdkeychain_NewMaster sd in
  modify_wallet (with_mk k);;
  if err is Some e then mret (Some (Errorf_w "Could not create wallet master key" e)) else
  (* Create wallet store *)
  modify_wallet (with_ws (Some
    (mkStore None encryptor_Name encryptor_Version (uuid_New env)
       derivationPath walletIndex 0%N)));;
  mret None.

(** Serialize the wallet to a JSON string *)
Definition String_ (w : LocalWallet) : string * option error :=
  if negb (IsInitialized w) then ("", Some ErrNotInitialized) else
  let (wsBytes, err) := json_Marshal (ws w) in
  if err is Some e then ("", Some (Errorf_w "Could not encode wallet" e)) else
  (string_of_list_byte wsBytes, None).

(** Save the wallet store to disk *)
Definition Save (env : Env) : Op (option error) :=
  w ← get_wallet;
  (* Check wallet is initialized *)
  if negb (IsInitialized w) then mret (Some ErrNotInitialized) else
  (* Encode wallet store *)
  let (wsBytes, err) := json_Marshal (ws w) in
  if err is Some e then mret (Some (Errorf_w "Could not encode wallet" e)) else
  (* Write wallet store to disk *)
  d ← get_disk;
  let (d', err) := os_WriteFile env d (walletPath w) wsBytes FileMode in
  put_disk d';;
  if err is Some e then mret (Some (Errorf_w "Could not write wallet to disk" e)) else
  mret None.

(** Delete the wallet store from disk *)
Definition Delete (env : Env) : Op (option error) :=
  w ← get_wallet;
  d ← get_disk;
  (* Check if it exists *)
  match os_Stat d (walletPath w) with
  | Some err =>
      if os_IsNotExist err then mret None
      else mret (Some (Errorf_w "error checking wallet file path" err))
  | None =>
      let (d', err) := os_Remove env d (walletPath w) in
      put_disk d';;
      mret err
  end.

End Wallet.

Arguments localWalletStore : clear implicits.
Arguments LocalWallet : clear implicits.
Arguments Env : clear implicits.
Arguments World : clear implicits.

(** ** Node key of a facade *)
Section NodeKey.
Context `{L : Libraries}.

(** The BIP-32 walk from a master key along a path template filled with an
    index: [DeriveNodeKey] of section 4.2 of the specification. *)
Variable DeriveNodeKey : ExtendedKey -> string -> N -> option PrivateKey.

(** Modelled from the spec: the node-key lookup behind [GetNodeKey]
    (getNodePrivateKey, in a file of the package that is not part of this
    development) is given by its interface in sections 4.2 and 4.4: the
    cached key if one is present, otherwise [DeriveNodeKey] applied to the
    master key, the store's path template and its wallet index, a pure
    function of these three. *)
Definition GetNodeKey (w : LocalWallet L) : option PrivateKey :=
  match nodeKey w with
  | Some k => Some k
  | None =>
      match mk w, ws w with
      | Some m, Some s => DeriveNodeKey m (DerivationPath s) (WalletIndex s)
      | _, _ => None
      end
  end.

End NodeKey.

(** ** Notions used in the statements *)
Section Notions.
Context `{L : Libraries}.

(** The store the load keeps in memory for a decoded record [s]: the
    record itself, with the default path template put in when its
    derivation path is empty. *)
Definition upgraded (s : localWalletStore L) : localWalletStore L :=
  if String.eqb (DerivationPath s) ""
  then with_DerivationPath DefaultNodeKeyPath s
  else s.

#[global] Instance store_field_eq_dec : EqDecision store_field.
Proof. solve_decision. Defined.

(** No member of the object selects field [f]. *)
Definition lacks_field (f : store_field) (ms : list (string * json)) : bool :=
  forallb (fun kv => negb (bool_decide (field_named kv.1 = Some f))) ms.

(** The scheme the wallet's encryptor implements. *)
Definition supported_scheme (s : localWalletStore L) : Prop :=
  Name s = encryptor_Name /\ Version s = encryptor_Version.

End Notions.

(** ** Readings of the specification that are compared with the code *)
Section Stated.
Context `{L : Libraries}.
Implicit Types (env : Env L) (W : World L).

(** Section 4.4, [Reload]: after a failed decryption no key material is
    left in the facade. *)
Definition stated_Reload_fails_closed env W : Prop :=
  forall e,
    (Reload env W).2 = Some (Errorf_w "Could not decrypt wallet seed" e) ->
    seed (wallet (Reload env W).1) = None /\
    mk (wallet (Reload env W).1) = None /\
    nodeKey (wallet (Reload env W).1) = None /\
    validatorKeys (wallet (Reload env W).1) = ∅.

(** Section 7: an I/O failure of [Save] leaves the previous file intact. *)
Definition stated_Save_keeps_previous_file env W : Prop :=
  forall e,
    (Save env W).2 = Some (Errorf_w "Could not write wallet to disk" e) ->
    disk (Save env W).1 !! walletPath (wallet W)
    = disk W !! walletPath (wallet W).

(** Section 4.4, [Recover], read for every wallet: an invalid mnemonic is
    answered with the invalid-mnemonic error, the world unchanged. *)
Definition stated_Recover_rejects_invalid env W
    (derivationPath : string) (walletIndex : N) (mnemonic : string) : Prop :=
  bip39_IsMnemonicValid mnemonic = false ->
  Recover env derivationPath walletIndex mnemonic W
  = (W, Some (ErrInvalidMnemonic mnemonic)).

(** Section 4.4, [Reload] from any state: without a store file it reports
    no error and the facade is uninitialized afterwards. *)
Definition stated_Reload_without_file env W : Prop :=
  disk W !! walletPath (wallet W) = None ->
  (Reload env W).2 = None /\
  IsInitialized (wallet (Reload env W).1) = false.

(** Section 9: a store that names any other scheme is refused by the
    load. *)
Definition stated_load_rejects_unknown_scheme env W : Prop :=
  forall perm data s,
    disk W !! walletPath (wallet W) = Some (File perm data) ->
    read_fault env = None ->
    json_Unmarshal data new_localWalletStore = (s, None) ->
    ~ supported_scheme s ->
    exists e, (loadStore env W).2 = (false, Some e).

End Stated.

(** ** Signing a message *)

(** A Go call either returns or panics. *)
Inductive outcome (A : Type) : Type :=
| Returns (a : A)
| Panics (msg : string).
Arguments Returns {A} a.
Arguments Panics {A} msg.

(** [crypto.RecoveryIDOffset] of go-ethereum. *)
Definition RecoveryIDOffset : nat := 64.

(** [b += n] on a Go [byte]: addition modulo 256. *)
Definition byte_add (b : byte) (n : N) : byte :=
  default x00 (Byte.of_N ((Byte.to_N b + n) mod 256)).

Section Signing.
Context `{L : Libraries}.

(** The node-key lookup of the package (getNodePrivateKey, in a file that
    is not part of this development) is taken as it is called: it returns
    key, path and error, and may fill the node-key cache.  The message hash
    and the secp256k1 signature are go-ethereum's. *)
Variable getNodePrivateKey : Op (option PrivateKey * string * option error).
Variable accounts_TextHash : list byte -> list byte.
Variable crypto_Sign :
  list byte -> option PrivateKey -> option (list byte) * option error.

(** Signs an arbitrary message using the wallet's private key *)
Definition SignMessage (message : string)
  : Op (outcome (option (list byte) * option error)) :=
  (* Get the wallet's private key *)
  r ← getNodePrivateKey;
  let privateKey := r.1.1 in
  if r.2 is Some e then mret (Returns (None, Some e)) else
  let messageHash := accounts_TextHash (list_byte_of_string message) in
  let (signedMessage, err) := crypto_Sign messageHash privateKey in
  if err is Some e
  then mret (Returns (None, Some (Errorf_w "Error signing message" e)))
  else
  (* fix the ECDSA 'v' *)
  let sig := default [] signedMessage in
  match sig !! RecoveryIDOffset with
  | None => mret (Panics "index out of range [64]")
  | Some v =>
      mret (Returns (Some (<[RecoveryIDOffset := byte_add v 27]> sig), None))
  end.

End Signing.

(** ** The part of the facade outside store, seed and master key *)
Section Caches.
Context `{L : Libraries}.

(** Everything in the facade except the store, the seed and the master
    key: path, chain, gas settings, the node-key cache, the validator-key
    cache and the registered keystores. *)
Definition same_caches (w w' : LocalWallet L) : Prop :=
  walletPath w' = walletPath w /\ chainID w' = chainID w /\
  nodeKey w' = nodeKey w /\ nodeKeyPath w' = nodeKeyPath w /\
  validatorKeys w' = validatorKeys w /\ keystores w' = keystores w /\
  maxFee w' = maxFee w /\ maxPriorityFee w' = maxPriorityFee w /\
  gasLimit w' = gasLimit w.

End Caches.

(** ** An executable instance of the libraries

    Small stand-ins for the external packages, so that the methods can be
    run on concrete worlds.  The mnemonic check accepts one known-good
    24-word phrase; the encryptor keeps the secret next to the password it
    was sealed under and refuses any other password; JSON texts are real
    JSON, and the parser knows the documents listed in [documents]. *)
Module Demo.

Definition dquote : string := String (ascii_of_nat 34) EmptyString.
Definition quoted (s : string) : string := dquote ++ s ++ dquote.

Definition join (sep : string) (l : list string) : string :=
  match l with
  | [] => ""
  | x :: r => fold_left (fun acc y => acc ++ sep ++ y) r x
  end.

Fixpoint print (j : json) : string :=
  match j with
  | JNull => "null"
  | JBool b => if b then "true" else "false"
  | JNumber n => NilZero.string_of_int (Z.to_int n)
  | JString s => quoted s
  | JArray l => "[" ++ join "," (List.map print l) ++ "]"
  | JObject ms =>
      "{" ++ join "," (List.map (fun kv => quoted (fst kv) ++ ":" ++ print (snd kv)) ms)
          ++ "}"
  end.

Definition text (j : json) : list byte := list_byte_of_string (print j).

(** The all-zero-entropy 24-word phrase of the BIP-39 test vectors. *)
Definition mnemonic0 : string :=
  "abandon abandon abandon abandon abandon abandon abandon abandon abandon abandon abandon abandon abandon abandon abandon abandon abandon abandon abandon abandon abandon abandon abandon art".

Definition NewSeed (mnemonic passphrase : string) : list byte :=
  take 64 (list_byte_of_string (mnemonic ++ passphrase) ++ repeat x00 64).

Definition NewMaster (sd : list byte) : option (list byte) * option error :=
  if (16 <=? length sd)%nat && (length sd <=? 64)%nat
  then (Some (x04 :: sd), None)
  else (None, Some (errors_New "seed length must be between 128 and 512 bits")).

Definition json_of_bytes (l : list byte) : json :=
  JArray (List.map (fun b => JNumber (Z.of_N (Byte.to_N b))) l).

Definition byte_of_json (j : json) : byte :=
  match j with
  | JNumber n => default x00 (Byte.of_N (Z.to_N n))
  | _ => x00
  end.

Definition Encrypt (secret : list byte) (password : string) (rand : list byte)
  : option (gmap string json) * option error :=
  (Some {[ "secret" := json_of_bytes secret;
           "sealedWith" := JString password;
           "salt" := json_of_bytes rand ]}, None).

Definition Decrypt (c : option (gmap string json)) (password : string)
  : option (list byte) * option error :=
  match c ≫= (fun m => m !! "sealedWith"), c ≫= (fun m => m !! "secret") with
  | Some (JString p), Some (JArray l) =>
      if String.eqb p password then (Some (List.map byte_of_json l), None)
      else (None, Some (errors_New "invalid checksum"))
  | _, _ => (None, Some (errors_New "no cipher"))
  end.

Definition sealed (password : string) : json :=
  JObject [ ("secret", json_of_bytes (NewSeed mnemonic0 ""));
            ("sealedWith", JString password);
            ("salt", json_of_bytes [x01; x02]) ].

Definition uuid0 : string := "3b241101-e2bb-4255-8caf-4136c566a962".

(** A store as [Save] writes it, a legacy store without [derivationPath],
    and a store that names an encryption scheme nobody implements. *)
Definition doc_saved : json :=
  JObject [ ("crypto", sealed "hunter2"); ("name", JString "keystore");
            ("version", JNumber 4); ("uuid", JString uuid0);
            ("derivationPath", JString LedgerLiveNodeKeyPath);
            ("walletIndex", JNumber 3); ("next_account", JNumber 0) ].

Definition legacy_members : list (string * json) :=
  [ ("crypto", sealed "hunter2"); ("name", JString "keystore");
    ("version", JNumber 4); ("uuid", JString uuid0);
    ("next_account", JNumber 2) ].
Definition doc_legacy : json := JObject legacy_members.

Definition doc_unknown_scheme : json :=
  JObject [ ("crypto", sealed "hunter2"); ("name", JString "rot13");
            ("version", JNumber 99); ("uuid", JString uuid0);
            ("derivationPath", JString DefaultNodeKeyPath);
            ("next_account", JNumber 0) ].

Definition documents : list json := [doc_saved; doc_legacy; doc_unknown_scheme].

Definition parse (data : list byte) : json + error :=
  match find (fun j => bool_decide (text j = data)) documents with
  | Some j => inl j
  | None => inr (errors_New "invalid character looking for beginning of value")
  end.

#[export] Instance libs : Libraries := {|
  bip39_NewMnemonic := fun entropy =>
    if (length entropy =? 32)%nat then (mnemonic0, None)
    else ("", Some (errors_New "Entropy length must be [128, 256] and a multiple of 32"));
  bip39_IsMnemonicValid := fun m => String.eqb m mnemonic0;
  bip39_NewSeed := NewSeed;
  ExtendedKey := list byte;
  hdkeychain_NewMaster := NewMaster;
  encryptor_Name := "keystore";
  encryptor_Version := 4%N;
  encryptor_Encrypt := Encrypt;
  encryptor_Decrypt := Decrypt;
  json_text := fun j => (text j, None);
  json_parse := parse;
  UUID := string;
  uuid_Nil := "00000000-0000-0000-0000-000000000000";
  uuid_String := fun u => u;
  uuid_Parse := fun s => if (String.length s =? 36)%nat then Some s else None;
  PrivateKey := list byte;
  BLSPrivateKey := list byte;
  Keystore := string
|}.

(** Concrete worlds. *)
Definition path0 : string := "/.rocketpool/data/wallet".

(** An entropy source that only ever draws zeros. *)
Definition entropy0 (bits : N) : list byte * option error :=
  (repeat x00 (N.to_nat (bits / 8)), None).

(** The world answers with password "hunter2" and lets every I/O call
    through. *)
Definition env0 : Env libs :=
  mkEnv ("hunter2", None) entropy0 uuid0 [x01; x02]
    None WriteCompletes None.

(** The same, after the password was changed behind the wallet's back. *)
Definition env_wrong_password : Env libs :=
  mkEnv ("letmein", None) entropy0 uuid0 [x01; x02]
    None WriteCompletes None.

(** The same as [env0], on a full disk: the file is opened (and truncated)
    and the write fails at once. *)
Definition env_disk_full : Env libs :=
  mkEnv ("hunter2", None) entropy0 uuid0 [x01; x02]
    None (WriteFailsAfter 0 (errors_New "no space left on device")) None.

(** A facade as the constructor makes it, on an empty disk. *)
Definition w_fresh : LocalWallet libs :=
  mkWallet path0 1 None None None None "" ∅ ∅ None None 0%N.
Definition W_fresh : World libs := mkWorld ∅ w_fresh.

(** After [Recover]: initialized, nothing on disk yet. *)
Definition W_recovered : World libs :=
  (Recover env0 LedgerLiveNodeKeyPath 3%N mnemonic0 W_fresh).1.

(** After [Recover] and [Save]. *)
Definition W_saved : World libs := (Save env0 W_recovered).1.

(** A saved wallet in use: the node key and one validator key have been
    derived and cached. *)
Definition W_in_use : World libs :=
  mkWorld (disk W_saved)
    (mkWallet path0 1 (ws (wallet W_saved)) (seed (wallet W_saved))
       (mk (wallet W_saved)) (Some [x2a]) "m/44'/60'/3/0/0"
       {[ 0%N := [x2b] ]} ∅ None None 0%N).

(** A second constructor-made facade, in another world: another chain,
    another disk, the validator-client keystores registered. *)
Definition W_fresh' : World libs :=
  mkWorld {[ "/tmp/unrelated" := File 420%N [x00] ]}
    (mkWallet path0 5 None None None None "" ∅ {[ "lighthouse" := "ks" ]}
       (Some 100%Z) (Some 2%Z) 0%N).

(** A stand-in for the BIP-32 walk: the key is read off the master key,
    the path template and the index. *)
Definition DeriveNodeKey (m : @ExtendedKey libs) (path : string) (i : N)
  : option (@PrivateKey libs) :=
  Some (m ++ list_byte_of_string path ++ [default x00 (Byte.of_N i)])%list.

(** Fresh facades over a legacy store file and over a store file with an
    unknown scheme. *)
Definition W_legacy : World libs :=
  mkWorld {[ path0 := File FileMode (text doc_legacy) ]} w_fresh.
Definition W_unknown_scheme : World libs :=
  mkWorld {[ path0 := File FileMode (text doc_unknown_scheme) ]} w_fresh.

(** Stand-ins for the signing collaborators: the node key is the cached
    one, the hash keeps the first 32 bytes, the signature is 64 bytes
    read off hash and key followed by the recovery id 1. *)
Definition getNodePrivateKey
  : Op (option (@PrivateKey libs) * string * option error) :=
  fun W =>
    match nodeKey (wallet W) with
    | Some k => (W, (Some k, nodeKeyPath (wallet W), None))
    | None => (W, (None, "", Some (errors_New "Wallet is not initialized")))
    end.

Definition TextHash (data : list byte) : list byte :=
  take 32 (data ++ repeat x00 32)%list.

Definition Sign (hash : list byte) (key : option (@PrivateKey libs))
  : option (list byte) * option error :=
  match key with
  | Some k => (Some (take 64 (hash ++ k ++ repeat x00 64) ++ [x01])%list, None)
  | None => (None, Some (errors_New "invalid private key"))
  end.


(** A world whose password manager has no password to give. *)
Definition env_no_password : Env libs :=
  mkEnv ("", Some (errors_New "password file not found")) entropy0 uuid0
    [x01; x02] None WriteCompletes None.

(** The wallet in use after a [Reload] under the wrong password: the store
    record is there, the seed is not. *)
Definition W_locked : World libs := (Reload env_wrong_password W_in_use).1.

End Demo.

(** * Properties *)

Section Properties.
Context `{L : Libraries}.
Implicit Types (env : Env L) (W : World L) (w : LocalWallet L).

(** Unfolds one method down to its matches. *)
Ltac step_op :=
  unfold mbind, mret, Op_bind, Op_ret, get_wallet, get_disk, put_disk,
    modify_ws, modify_wallet; cbn [fst snd disk wallet].

(** ** The [os] calls *)

Lemma os_Stat_missing (d : gmap string fentry) name :
  d !! name = None -> os_Stat d name = Some (PathError "stat" name ErrNotExist).
Proof. intros H. unfold os_Stat. now rewrite H. Qed.

Lemma os_Remove_frame env (d : gmap string fentry) name :
  (os_Remove env d name).1 = d \/ (os_Remove env d name).1 = delete name d.
Proof.
  unfold os_Remove.
  destruct (d !! name) as [[e|perm data]|]; cbn; auto.
  destruct (remove_fault env); cbn; auto.
Qed.

Lemma os_Remove_ok env (d : gmap string fentry) name :
  (os_Remove env d name).2 = None -> (os_Remove env d name).1 !! name = None.
Proof.
  unfold os_Remove.
  destruct (d !! name) as [[e|perm data]|] eqn:E; cbn; try discriminate.
  destruct (remove_fault env); cbn; try discriminate.
  intros _. apply lookup_delete_eq.
Qed.

Lemma os_ReadFile_missing env (d : gmap string fentry) name :
  d !! name = None ->
  os_ReadFile env d name = ([], Some (PathError "open" name ErrNotExist)).
Proof. intros H. unfold os_ReadFile. now rewrite H. Qed.

Lemma os_ReadFile_file env (d : gmap string fentry) name perm data :
  d !! name = Some (File perm data) -> read_fault env = None ->
  os_ReadFile env d name = (data, None).
Proof. intros H F. unfold os_ReadFile. now rewrite H, F. Qed.

(** ** Delete *)

Lemma Delete_missing env W :
  disk W !! walletPath (wallet W) = None -> Delete env W = (W, None).
Proof.
  intros H. unfold Delete. step_op.
  rewrite (os_Stat_missing _ _ H). cbn. reflexivity.
Qed.

Lemma Delete_wallet env W : wallet (Delete env W).1 = wallet W.
Proof.
  unfold Delete. step_op.
  destruct (os_Stat _ _) as [e|].
  - destruct (os_IsNotExist e); reflexivity.
  - destruct (os_Remove _ _ _). reflexivity.
Qed.

Lemma Delete_disk env W :
  disk (Delete env W).1 = disk W \/
  disk (Delete env W).1 = delete (walletPath (wallet W)) (disk W).
Proof.
  unfold Delete. step_op.
  destruct (os_Stat _ _) as [e|].
  - destruct (os_IsNotExist e); auto.
  - pose proof (os_Remove_frame env (disk W) (walletPath (wallet W))) as H.
    destruct (os_Remove _ _ _). exact H.
Qed.

Lemma Delete_again env1 env2 W :
  (Delete env1 W).2 = None ->
  Delete env2 (Delete env1 W).1 = ((Delete env1 W).1, None).
Proof.
  unfold Delete at 1 3 4. step_op.
  destruct (os_Stat (disk W) _) as [e|] eqn:S.
  - destruct (os_IsNotExist e) eqn:N; cbn; try discriminate.
    intros _. unfold Delete. step_op. now rewrite S, N.
  - pose proof (os_Remove_ok env1 (disk W) (walletPath (wallet W))) as H.
    destruct (os_Remove _ _ _) as [d' r]. cbn in *.
    intros ->. now apply Delete_missing, H.
Qed.

Lemma Delete_file env W perm data :
  disk W !! walletPath (wallet W) = Some (File perm data) ->
  remove_fault env = None ->
  Delete env W = (mkWorld (delete (walletPath (wallet W)) (disk W)) (wallet W), None).
Proof.
  intros H F. unfold Delete. step_op.
  unfold os_Stat, os_Remove. now rewrite H, F.
Qed.

(** C8. [Delete] is idempotent at the file system: when the store file does
    not exist it returns no error and changes nothing; a [Delete] that
    follows a successful [Delete] returns no error and changes nothing;
    and the first [Delete] of an existing file succeeds whenever the
    removal itself is not refused by the operating system. *)
Theorem Delete_idempotent env1 env2 W :
  (disk W !! walletPath (wallet W) = None -> Delete env1 W = (W, None)) /\
  ((Delete env1 W).2 = None ->
   Delete env2 (Delete env1 W).1 = ((Delete env1 W).1, None)) /\
  (forall perm data,
     disk W !! walletPath (wallet W) = Some (File perm data) ->
     remove_fault env1 = None ->
     (Delete env1 W).2 = None /\ (Delete env2 (Delete env1 W).1).2 = None).
Proof.
  split; [apply Delete_missing|].
  split; [apply Delete_again|].
  intros perm data H F.
  assert ((Delete env1 W).2 = None) as E
    by now rewrite (Delete_file _ _ _ _ H F).
  split; [exact E|]. now rewrite (Delete_again env1 env2 W E).
Qed.

(** C9. [Delete] touches the disk only: the facade (store record, seed,
    master key, node-key cache, validator-key cache and every other field)
    is the same after as before, and on disk at most the entry at the
    wallet path is removed. *)
Theorem Delete_leaves_memory env W :
  wallet (Delete env W).1 = wallet W /\
  ws (wallet (Delete env W).1) = ws (wallet W) /\
  seed (wallet (Delete env W).1) = seed (wallet W) /\
  mk (wallet (Delete env W).1) = mk (wallet W) /\
  nodeKey (wallet (Delete env W).1) = nodeKey (wallet W) /\
  validatorKeys (wallet (Delete env W).1) = validatorKeys (wallet W) /\
  (disk (Delete env W).1 = disk W \/
   disk (Delete env W).1 = delete (walletPath (wallet W)) (disk W)).
Proof.
  rewrite Delete_wallet. repeat split; apply Delete_disk.
Qed.

(** ** Loading *)

Lemma pair_snd_eq {A B : Type} (p : A * B) (b : B) : p.2 = b -> p = (p.1, b).
Proof. destruct p. cbn. now intros ->. Qed.

Lemma World_eta W : mkWorld (disk W) (wallet W) = W.
Proof. now destruct W. Qed.

Lemma loadStore_unreadable env W data e :
  os_ReadFile env (disk W) (walletPath (wallet W)) = (data, Some e) ->
  loadStore env W = (W, (false, None)).
Proof. intros H. unfold loadStore. step_op. now rewrite H. Qed.

Lemma loadStore_missing env W :
  disk W !! walletPath (wallet W) = None ->
  loadStore env W = (W, (false, None)).
Proof.
  intros H. eapply loadStore_unreadable. now apply os_ReadFile_missing.
Qed.

Lemma Reload_loadStore env W :
  Reload env W = ((loadStore env W).1, (loadStore env W).2.2).
Proof. unfold Reload. step_op. now destruct (loadStore env W). Qed.

(** C5, as the code has it. Without a store file the load reports "not
    loaded" and no error, [Reload] returns no error, and the world is left
    exactly as it was: a facade that was uninitialized stays so (one that
    was initialized in memory stays initialized), and the constructor
    returns an uninitialized facade. *)
Theorem Reload_without_file env W :
  disk W !! walletPath (wallet W) = None ->
  loadStore env W = (W, (false, None)) /\
  Reload env W = (W, None) /\
  (IsInitialized (wallet W) = false ->
   IsInitialized (wallet (Reload env W).1) = false) /\
  (forall chainId fee priorityFee gas,
     exists w, NewLocalWallet env (disk W) (walletPath (wallet W)) chainId
                 fee priorityFee gas = (disk W, (Some w, None))
               /\ IsInitialized w = false).
Proof.
  intros H. pose proof (loadStore_missing env W H) as E.
  split; [exact E|].
  assert (Reload env W = (W, None)) as R by now rewrite Reload_loadStore, E.
  split; [exact R|]. split; [now rewrite R|].
  intros chainId fee priorityFee gas. unfold NewLocalWallet.
  rewrite loadStore_missing by exact H. cbn. eexists. split; reflexivity.
Qed.

Lemma loadStore_decoded env W perm data s :
  disk W !! walletPath (wallet W) = Some (File perm data) ->
  read_fault env = None ->
  json_Unmarshal data new_localWalletStore = (s, None) ->
  loadStore env W =
  let w1 := with_ws (Some (upgraded s)) (wallet W) in
  match GetPassword env with
  | (_, Some e) =>
      (mkWorld (disk W) w1, (false, Some (Errorf_w "Could not get wallet password" e)))
  | (password, None) =>
      match encryptor_Decrypt (Crypto (upgraded s)) password with
      | (sd, Some e) =>
          (mkWorld (disk W) (with_seed sd w1),
           (false, Some (Errorf_w "Could not decrypt wallet seed" e)))
      | (sd, None) =>
          match hdkeychain_NewMaster (default [] sd) with
          | (k, Some e) =>
              (mkWorld (disk W) (with_mk k (with_seed sd w1)),
               (false, Some (Errorf_w "Could not create wallet master key" e)))
          | (k, None) =>
              (mkWorld (disk W) (with_mk k (with_seed sd w1)), (true, None))
          end
      end
  end.
Proof.
  intros H F D. unfold loadStore. step_op.
  rewrite (os_ReadFile_file _ _ _ _ _ H F), D. cbn.
  unfold upgraded.
  destruct (String.eqb (DerivationPath s) ""); cbn;
    destruct (GetPassword env) as [password [e|]]; cbn; try reflexivity;
    destruct (encryptor_Decrypt _ password) as [sd [e|]]; cbn; try reflexivity;
    destruct (hdkeychain_NewMaster _) as [k [e|]]; reflexivity.
Qed.

Lemma loadStore_disk env W : disk (loadStore env W).1 = disk W.
Proof.
  unfold loadStore. step_op.
  destruct (os_ReadFile _ _ _) as [data [e|]]; [reflexivity|].
  destruct (json_Unmarshal _ _) as [s [e|]]; cbn; [reflexivity|].
  destruct (String.eqb (DerivationPath s) ""); cbn;
    destruct (GetPassword env) as [password [e|]]; cbn; try reflexivity;
    destruct (encryptor_Decrypt _ password) as [sd [e|]]; cbn; try reflexivity;
    destruct (hdkeychain_NewMaster _) as [k [e|]]; reflexivity.
Qed.

(** Decoding a member that does not select the derivation path leaves the
    path as it was. *)
Lemma decode_member_path s kv :
  field_named kv.1 <> Some FDerivationPath ->
  DerivationPath (decode_member s kv).1 = DerivationPath s.
Proof.
  destruct kv as [k v]. cbn [fst]. intros H. unfold decode_member.
  destruct (field_named k) as [[]|]; try reflexivity; try congruence.
  - now destruct (decode_map _ _ _).
  - now destruct (decode_string _ _ _).
  - now destruct (decode_uint _ _ _).
  - now destruct (decode_uuid _ _ _).
  - now destruct (decode_uint _ _ _).
  - now destruct (decode_uint _ _ _).
Qed.

Lemma decode_members_path ms : forall s,
  lacks_field FDerivationPath ms = true ->
  DerivationPath (decode_members ms s).1 = DerivationPath s.
Proof.
  induction ms as [|kv ms IH]; intros s H; [reflexivity|].
  cbn in H. apply andb_true_iff in H as [Hkv Hms].
  apply negb_true_iff, bool_decide_eq_false in Hkv.
  cbn [decode_members].
  pose proof (decode_member_path s kv Hkv) as P.
  destruct (decode_member s kv) as [s1 e1]. cbn in P.
  specialize (IH s1 Hms).
  destruct (decode_members ms s1) as [s2 e2]. cbn in *. congruence.
Qed.

(** C6. A store file whose record has no [derivationPath] member, and that
    decodes without error, is held in memory with the default path
    template [m/44'/60'/0'/0/%d], whatever happens later in the load
    (password, decryption, master key); and the load leaves the disk as it
    was. *)
Theorem loadStore_legacy_path env W perm data ms :
  disk W !! walletPath (wallet W) = Some (File perm data) ->
  read_fault env = None ->
  json_parse data = inl (JObject ms) ->
  lacks_field FDerivationPath ms = true ->
  (json_Unmarshal data new_localWalletStore).2 = None ->
  DerivationPath <$> ws (wallet (loadStore env W).1) = Some DefaultNodeKeyPath /\
  DefaultNodeKeyPath = "m/44'/60'/0'/0/%d" /\
  disk (loadStore env W).1 = disk W.
Proof.
  intros H F P Lk D.
  split; [|split; [reflexivity | apply loadStore_disk]].
  destruct (json_Unmarshal data new_localWalletStore) as [s e] eqn:U.
  cbn in D. subst e.
  assert (DerivationPath s = "") as Z.
  { unfold json_Unmarshal in U. rewrite P in U.
    pose proof (decode_members_path ms new_localWalletStore Lk) as Q.
    rewrite U in Q. exact Q. }
  rewrite (loadStore_decoded _ _ _ _ _ H F U). cbn zeta.
  unfold upgraded. rewrite Z. cbn [String.eqb].
  destruct (GetPassword env) as [password [e|]]; [reflexivity|].
  destruct (encryptor_Decrypt _ password) as [sd [e|]]; [reflexivity|].
  destruct (hdkeychain_NewMaster _) as [k [e|]]; reflexivity.
Qed.

Lemma Crypto_upgraded (s : localWalletStore L) : Crypto (upgraded s) = Crypto s.
Proof. unfold upgraded. now destruct (String.eqb _ _). Qed.

Lemma Name_Version_upgraded (s : localWalletStore L) :
  Name (upgraded s) = Name s /\ Version (upgraded s) = Version s.
Proof. unfold upgraded. now destruct (String.eqb _ _). Qed.

(** C1, as the code has it. When the load reaches decryption and the
    encryptor refuses, [Reload] returns the "Could not decrypt wallet seed"
    error and drops no cache: the store record is replaced by the record
    just read, the seed by whatever the encryptor returned, and the master
    key, the node-key cache and the validator-key cache are the ones from
    before the call.  When the encryptor returns a nil seed with its error,
    the facade reports itself uninitialized. *)
Theorem Reload_decrypt_failure env W perm data s password sd e :
  disk W !! walletPath (wallet W) = Some (File perm data) ->
  read_fault env = None ->
  json_Unmarshal data new_localWalletStore = (s, None) ->
  GetPassword env = (password, None) ->
  encryptor_Decrypt (Crypto s) password = (sd, Some e) ->
  Reload env W
  = (mkWorld (disk W) (with_seed sd (with_ws (Some (upgraded s)) (wallet W))),
     Some (Errorf_w "Could not decrypt wallet seed" e)) /\
  ws (wallet (Reload env W).1) = Some (upgraded s) /\
  seed (wallet (Reload env W).1) = sd /\
  mk (wallet (Reload env W).1) = mk (wallet W) /\
  nodeKey (wallet (Reload env W).1) = nodeKey (wallet W) /\
  validatorKeys (wallet (Reload env W).1) = validatorKeys (wallet W) /\
  (sd = None -> IsInitialized (wallet (Reload env W).1) = false).
Proof.
  intros H F D P C.
  assert (Reload env W
          = (mkWorld (disk W) (with_seed sd (with_ws (Some (upgraded s)) (wallet W))),
             Some (Errorf_w "Could not decrypt wallet seed" e))) as R.
  { rewrite Reload_loadStore, (loadStore_decoded _ _ _ _ _ H F D). cbn zeta.
    now rewrite P, Crypto_upgraded, C. }
  rewrite R. cbn. repeat split. intros ->. reflexivity.
Qed.

(** C7, as the code has it. The load never looks at the scheme name or
    version of the record: once the file is decoded and the password is at
    hand, the crypto blob is handed to the encryptor whatever the record
    says its scheme is, the name and version are kept as read, and the
    outcome of the load is the outcome of the decryption followed by the
    master-key creation. *)
Theorem loadStore_ignores_scheme env W perm data s password :
  disk W !! walletPath (wallet W) = Some (File perm data) ->
  read_fault env = None ->
  json_Unmarshal data new_localWalletStore = (s, None) ->
  GetPassword env = (password, None) ->
  Name <$> ws (wallet (loadStore env W).1) = Some (Name s) /\
  Version <$> ws (wallet (loadStore env W).1) = Some (Version s) /\
  seed (wallet (loadStore env W).1) = (encryptor_Decrypt (Crypto s) password).1 /\
  (loadStore env W).2 =
    match encryptor_Decrypt (Crypto s) password with
    | (_, Some e) => (false, Some (Errorf_w "Could not decrypt wallet seed" e))
    | (sd, None) =>
        match hdkeychain_NewMaster (default [] sd) with
        | (_, Some e) => (false, Some (Errorf_w "Could not create wallet master key" e))
        | (_, None) => (true, None)
        end
    end.
Proof.
  intros H F D P.
  rewrite (loadStore_decoded _ _ _ _ _ H F D). cbn zeta.
  rewrite P, Crypto_upgraded.
  destruct (Name_Version_upgraded s) as [Hn Hv].
  destruct (encryptor_Decrypt (Crypto s) password) as [sd [e|]]; cbn;
    [now rewrite Hn, Hv|].
  destruct (hdkeychain_NewMaster _) as [k [e|]]; cbn; now rewrite Hn, Hv.
Qed.

(** ** Save *)

Lemma os_WriteFile_cases env (d : gmap string fentry) name data perm :
  match (os_WriteFile env d name data perm).2 with
  | None =>
      (os_WriteFile env d name data perm).1
      = <[name := File (opened_perm d name perm) data]> d
  | Some _ =>
      (os_WriteFile env d name data perm).1 = d \/
      exists n, (os_WriteFile env d name data perm).1
                = <[name := File (opened_perm d name perm) (take n data)]> d
  end.
Proof.
  unfold os_WriteFile.
  destruct (d !! name) as [[e|p old]|]; cbn; auto;
    destruct (write_fault env) as [|e|n e]; cbn; eauto.
Qed.

(** C2, as the code has it. [Save] on an initialized wallet writes the
    serialized store in place with [os.WriteFile] and leaves the facade as
    it was.  When it returns no error the file holds the whole
    serialization.  When the write fails it returns the "Could not write
    wallet to disk" error, and the disk is either untouched (the file could
    not be opened) or the file holds only the first bytes of the new
    serialization (the write broke off after the file had been truncated):
    a write that breaks off after [n] bytes leaves exactly [n] bytes. *)
Theorem Save_writes_in_place env W data :
  IsInitialized (wallet W) = true ->
  json_Marshal (ws (wallet W)) = (data, None) ->
  let path := walletPath (wallet W) in
  let perm := opened_perm (disk W) path FileMode in
  wallet (Save env W).1 = wallet W /\
  match (Save env W).2 with
  | None => disk (Save env W).1 = <[path := File perm data]> (disk W)
  | Some err =>
      (exists e, err = Errorf_w "Could not write wallet to disk" e) /\
      (disk (Save env W).1 = disk W \/
       exists n, disk (Save env W).1 = <[path := File perm (take n data)]> (disk W))
  end /\
  (forall n e,
     write_fault env = WriteFailsAfter n e ->
     (forall e', disk W !! path <> Some (Unreachable e')) ->
     Save env W
     = (mkWorld (<[path := File perm (take n data)]> (disk W)) (wallet W),
        Some (Errorf_w "Could not write wallet to disk" (PathError "write" path e)))).
Proof.
  intros I M path perm. unfold Save. step_op. rewrite I, M. cbn.
  pose proof (os_WriteFile_cases env (disk W) path data FileMode) as C.
  fold path.
  split; [|split].
  - destruct (os_WriteFile _ _ _ _ _) as [d' [e|]]; reflexivity.
  - destruct (os_WriteFile _ _ _ _ _) as [d' [e|]]; cbn in *; eauto.
  - intros n e Wf Hr. unfold os_WriteFile. rewrite Wf.
    destruct (disk W !! path) as [[e'|p old]|] eqn:E; cbn; try reflexivity.
    now destruct (Hr e').
Qed.

(** ** Initialize and Recover *)

(** C4, as the code has it. On an initialized wallet [Initialize] and
    [Recover] fail with the already-initialized error and change nothing;
    on a wallet that is not initialized, [Recover] with a mnemonic that
    fails validation fails with the invalid-mnemonic error and changes
    nothing. *)
Theorem Initialize_Recover_reject env W derivationPath walletIndex mnemonic :
  (IsInitialized (wallet W) = true ->
   Initialize env derivationPath walletIndex W = (W, ("", Some ErrAlreadyInitialized)) /\
   Recover env derivationPath walletIndex mnemonic W = (W, Some ErrAlreadyInitialized)) /\
  (IsInitialized (wallet W) = false ->
   bip39_IsMnemonicValid mnemonic = false ->
   Recover env derivationPath walletIndex mnemonic W
   = (W, Some (ErrInvalidMnemonic mnemonic))).
Proof.
  split.
  - intros H. unfold Initialize, Recover. step_op. now rewrite H.
  - intros H V. unfold Recover. step_op. now rewrite H, V.
Qed.

(** What [initializeStore] leaves in the facade: the seed and the master
    key are functions of the mnemonic alone, and are assigned even when a
    later step fails; on success the store carries the path and index it
    was given, and the node-key cache is not touched. *)
Lemma initializeStore_keys env derivationPath walletIndex mnemonic W :
  let R := initializeStore env derivationPath walletIndex mnemonic W in
  seed (wallet R.1) = Some (bip39_NewSeed mnemonic "") /\
  mk (wallet R.1) = (hdkeychain_NewMaster (bip39_NewSeed mnemonic "")).1 /\
  nodeKey (wallet R.1) = nodeKey (wallet W) /\
  (R.2 = None ->
   DerivationPath <$> ws (wallet R.1) = Some derivationPath /\
   WalletIndex <$> ws (wallet R.1) = Some walletIndex).
Proof.
  unfold initializeStore. step_op.
  destruct (hdkeychain_NewMaster _) as [k [e|]]; cbn;
    [repeat split; discriminate|].
  destruct (GetPassword env) as [password [e|]]; cbn;
    [repeat split; discriminate|].
  destruct (encryptor_Encrypt _ _ _) as [c [e|]]; cbn;
    repeat split; discriminate.
Qed.

Lemma Recover_initializeStore env derivationPath walletIndex mnemonic W :
  IsInitialized (wallet W) = false ->
  bip39_IsMnemonicValid mnemonic = true ->
  Recover env derivationPath walletIndex mnemonic W
  = initializeStore env derivationPath walletIndex mnemonic W.
Proof.
  intros I V. unfold Recover. step_op. rewrite I, V. cbn.
  now destruct (initializeStore _ _ _ _ W) as [W' [e|]].
Qed.

Lemma Initialize_initializeStore env derivationPath walletIndex mnemonic W :
  (Initialize env derivationPath walletIndex W).2 = (mnemonic, None) ->
  (Initialize env derivationPath walletIndex W).1
  = (initializeStore env derivationPath walletIndex mnemonic W).1 /\
  (initializeStore env derivationPath walletIndex mnemonic W).2 = None.
Proof.
  unfold Initialize. step_op.
  destruct (IsInitialized (wallet W)); cbn; [discriminate|].
  destruct (NewEntropy env EntropyBits) as [entropy [e|]]; cbn; [discriminate|].
  destruct (bip39_NewMnemonic entropy) as [m [e|]]; cbn; [discriminate|].
  destruct (initializeStore env derivationPath walletIndex m W) as [W' [e|]] eqn:E;
    cbn; [discriminate|].
  intros [= <-]. now rewrite E.
Qed.

Lemma GetNodeKey_fresh derive w1 w2 :
  nodeKey w1 = None -> nodeKey w2 = None ->
  mk w1 = mk w2 ->
  DerivationPath <$> ws w1 = DerivationPath <$> ws w2 ->
  WalletIndex <$> ws w1 = WalletIndex <$> ws w2 ->
  GetNodeKey derive w1 = GetNodeKey derive w2.
Proof.
  intros N1 N2 M P I. unfold GetNodeKey. rewrite N1, N2, M.
  destruct (mk w2); [|reflexivity].
  destruct (ws w1) as [s1|], (ws w2) as [s2|]; cbn in *; congruence.
Qed.

(** C3. Recovery is deterministic. Two runs of [Recover] with the same
    valid mnemonic, path template and index, on facades that are not
    initialized, in any two worlds (other passwords, other encryption
    randomness, other store identifiers, other disks), end with the same
    seed and the same master key; when both succeed on facades whose
    node-key cache is empty, they give the same node key, hence the same
    node address.  An [Initialize] that draws that mnemonic agrees with
    them. *)
Theorem Recover_deterministic
    (derive : ExtendedKey -> string -> N -> option PrivateKey)
    env1 env2 W1 W2 derivationPath walletIndex mnemonic :
  bip39_IsMnemonicValid mnemonic = true ->
  IsInitialized (wallet W1) = false ->
  IsInitialized (wallet W2) = false ->
  nodeKey (wallet W1) = None ->
  nodeKey (wallet W2) = None ->
  let R1 := Recover env1 derivationPath walletIndex mnemonic W1 in
  let R2 := Recover env2 derivationPath walletIndex mnemonic W2 in
  seed (wallet R1.1) = Some (bip39_NewSeed mnemonic "") /\
  seed (wallet R1.1) = seed (wallet R2.1) /\
  mk (wallet R1.1) = mk (wallet R2.1) /\
  (R1.2 = None -> R2.2 = None ->
   GetNodeKey derive (wallet R1.1) = GetNodeKey derive (wallet R2.1)) /\
  (forall env3,
     let R3 := Initialize env3 derivationPath walletIndex W2 in
     R3.2 = (mnemonic, None) ->
     seed (wallet R1.1) = seed (wallet R3.1) /\
     mk (wallet R1.1) = mk (wallet R3.1) /\
     (R1.2 = None ->
      GetNodeKey derive (wallet R1.1) = GetNodeKey derive (wallet R3.1))).
Proof.
  intros V I1 I2 N1 N2 R1 R2. subst R1 R2.
  rewrite !Recover_initializeStore by assumption.
  destruct (initializeStore_keys env1 derivationPath walletIndex mnemonic W1)
    as (S1 & M1 & K1 & O1).
  destruct (initializeStore_keys env2 derivationPath walletIndex mnemonic W2)
    as (S2 & M2 & K2 & O2).
  split; [exact S1|]. split; [congruence|]. split; [congruence|]. split.
  - intros E1 E2. destruct (O1 E1) as [P1 X1], (O2 E2) as [P2 X2].
    apply GetNodeKey_fresh; congruence.
  - intros env3 R3 E3. subst R3.
    destruct (Initialize_initializeStore _ _ _ _ _ E3) as [-> E3'].
    destruct (initializeStore_keys env3 derivationPath walletIndex mnemonic W2)
      as (S3 & M3 & K3 & O3).
    split; [congruence|]. split; [congruence|].
    intros E1. destruct (O1 E1) as [P1 X1], (O3 E3') as [P3 X3].
    apply GetNodeKey_fresh; congruence.
Qed.

(** C10. [TestRecovery] has no already-initialized check: on any facade,
    initialized or not, a valid mnemonic whose master key can be created
    makes it return no error and overwrite the seed, the master key and
    the store; the new store has a nil [Crypto], the encryptor's name and
    version, a new identifier, the given path and index, and next account
    0.  Nothing else changes, on disk or in memory. *)
Theorem TestRecovery_overwrites env W derivationPath walletIndex mnemonic k :
  bip39_IsMnemonicValid mnemonic = true ->
  hdkeychain_NewMaster (bip39_NewSeed mnemonic "") = (k, None) ->
  let s := mkStore None encryptor_Name encryptor_Version (uuid_New env)
             derivationPath walletIndex 0%N in
  TestRecovery env derivationPath walletIndex mnemonic W
  = (mkWorld (disk W)
       (with_ws (Some s)
          (with_mk k (with_seed (Some (bip39_NewSeed mnemonic "")) (wallet W)))),
     None) /\
  seed (wallet (TestRecovery env derivationPath walletIndex mnemonic W).1)
  = Some (bip39_NewSeed mnemonic "") /\
  mk (wallet (TestRecovery env derivationPath walletIndex mnemonic W).1) = k /\
  ws (wallet (TestRecovery env derivationPath walletIndex mnemonic W).1) = Some s /\
  Crypto s = None.
Proof.
  intros V M s.
  assert (TestRecovery env derivationPath walletIndex mnemonic W
          = (mkWorld (disk W)
               (with_ws (Some s)
                  (with_mk k (with_seed (Some (bip39_NewSeed mnemonic "")) (wallet W)))),
             None)) as E.
  { unfold TestRecovery. step_op. now rewrite V, M. }
  rewrite E. repeat split.
Qed.

End Properties.

(** * The properties on concrete worlds *)

Import Demo.

(** The model runs: [Save] writes the JSON text of the store, and a fresh
    facade over that file loads the seed and master key back. *)
Example Save_writes_doc_saved :
  disk W_saved !! path0 = Some (File FileMode (text doc_saved)).
Proof. vm_compute. reflexivity. Qed.

Example loadStore_round_trip :
  (loadStore env0 (mkWorld (disk W_saved) w_fresh)).2 = (true, None) /\
  seed (wallet (loadStore env0 (mkWorld (disk W_saved) w_fresh)).1)
  = seed (wallet W_recovered) /\
  mk (wallet (loadStore env0 (mkWorld (disk W_saved) w_fresh)).1)
  = mk (wallet W_recovered).
Proof. repeat split; vm_compute; reflexivity. Qed.

(** C8 on concrete worlds: deleting on an empty disk, and deleting a saved
    store twice. *)
Lemma Delete_idempotent_witness :
  Delete env0 W_fresh = (W_fresh, None) /\
  (Delete env0 W_saved).2 = None /\
  (Delete env0 (Delete env0 W_saved).1).2 = None /\
  Delete env0 (Delete env0 W_saved).1 = ((Delete env0 W_saved).1, None).
Proof.
  split; [apply (Delete_idempotent env0 env0 W_fresh); reflexivity|].
  assert (disk W_saved !! walletPath (wallet W_saved)
          = Some (File FileMode (text doc_saved))) as H
    by (vm_compute; reflexivity).
  destruct (proj2 (proj2 (Delete_idempotent env0 env0 W_saved)) _ _ H eq_refl)
    as [E1 E2].
  split; [exact E1|]. split; [exact E2|].
  exact (proj1 (proj2 (Delete_idempotent env0 env0 W_saved)) E1).
Defined.

(** C1 fails as stated: a saved wallet in use, the password changed behind
    its back.  [Reload] fails at decryption, and the master key from before
    the call is still in the facade. *)
Lemma Reload_keeps_stale_keys :
  ~ stated_Reload_fails_closed env_wrong_password W_in_use.
Proof.
  assert ((Reload env_wrong_password W_in_use).2
          = Some (Errorf_w "Could not decrypt wallet seed"
                    (errors_New "invalid checksum"))) as E
    by (vm_compute; reflexivity).
  assert (mk (wallet (Reload env_wrong_password W_in_use).1)
          = mk (wallet W_in_use)) as Em
    by (vm_compute; reflexivity).
  assert (mk (wallet W_in_use) <> None) as Em'
    by (vm_compute; discriminate).
  unfold stated_Reload_fails_closed. intros H.
  destruct (H _ E) as (_ & M & _). congruence.
Qed.

(** C1 as the code has it, on the same world: the error is the decryption
    error, the seed is gone, and master key and both caches are as before. *)
Lemma Reload_decrypt_failure_witness :
  (Reload env_wrong_password W_in_use).2
  = Some (Errorf_w "Could not decrypt wallet seed" (errors_New "invalid checksum")) /\
  mk (wallet (Reload env_wrong_password W_in_use).1) = mk (wallet W_in_use) /\
  nodeKey (wallet (Reload env_wrong_password W_in_use).1)
  = nodeKey (wallet W_in_use) /\
  validatorKeys (wallet (Reload env_wrong_password W_in_use).1)
  = validatorKeys (wallet W_in_use) /\
  IsInitialized (wallet (Reload env_wrong_password W_in_use).1) = false.
Proof.
  assert ((json_Unmarshal (text doc_saved) new_localWalletStore).2 = None) as D
    by (vm_compute; reflexivity).
  apply pair_snd_eq in D.
  assert (disk W_in_use !! walletPath (wallet W_in_use)
          = Some (File FileMode (text doc_saved))) as H
    by (vm_compute; reflexivity).
  assert (encryptor_Decrypt
            (Crypto (json_Unmarshal (text doc_saved) new_localWalletStore).1)
            "letmein"
          = (None, Some (errors_New "invalid checksum"))) as C
    by (vm_compute; reflexivity).
  assert (read_fault env_wrong_password = None) as F by reflexivity.
  assert (GetPassword env_wrong_password = ("letmein", None)) as P by reflexivity.
  destruct (Reload_decrypt_failure env_wrong_password W_in_use _ _ _ _ _ _
              H F D P C) as (R & _ & _ & M & K & V & I).
  split; [exact (f_equal snd R)|].
  split; [exact M|]. split; [exact K|]. split; [exact V|].
  exact (I eq_refl).
Defined.

(** C2 fails as stated: a saved wallet is saved again on a full disk; the
    write fails and the store file is left empty. *)
Lemma Save_truncates_previous_file :
  ~ stated_Save_keeps_previous_file env_disk_full W_saved.
Proof.
  assert ((Save env_disk_full W_saved).2
          = Some (Errorf_w "Could not write wallet to disk"
                    (PathError "write" path0 (errors_New "no space left on device"))))
    as E by (vm_compute; reflexivity).
  assert (disk (Save env_disk_full W_saved).1 !! walletPath (wallet W_saved)
          = Some (File FileMode [])) as Ea
    by (vm_compute; reflexivity).
  assert (disk W_saved !! walletPath (wallet W_saved)
          = Some (File FileMode (text doc_saved))) as Eb
    by (vm_compute; reflexivity).
  assert (text doc_saved <> []) as Ne by (vm_compute; discriminate).
  unfold stated_Save_keeps_previous_file. intros H.
  pose proof (H _ E) as X. rewrite Ea, Eb in X.
  injection X as X'. exact (Ne (eq_sym X')).
Qed.

(** C2 as the code has it, on the same world: the write that breaks off
    after 0 bytes leaves a file of 0 bytes. *)
Lemma Save_writes_in_place_witness :
  IsInitialized (wallet W_saved) = true /\
  json_Marshal (ws (wallet W_saved)) = (text doc_saved, None) /\
  Save env_disk_full W_saved
  = (mkWorld
       (<[walletPath (wallet W_saved) :=
            File (opened_perm (disk W_saved) (walletPath (wallet W_saved)) FileMode)
              (take 0 (text doc_saved))]> (disk W_saved))
       (wallet W_saved),
     Some (Errorf_w "Could not write wallet to disk"
             (PathError "write" (walletPath (wallet W_saved))
                (errors_New "no space left on device")))).
Proof.
  assert (IsInitialized (wallet W_saved) = true) as I by (vm_compute; reflexivity).
  assert (json_Marshal (ws (wallet W_saved)) = (text doc_saved, None)) as M
    by (vm_compute; reflexivity).
  assert (disk W_saved !! walletPath (wallet W_saved)
          = Some (File FileMode (text doc_saved))) as E0
    by (vm_compute; reflexivity).
  split; [exact I|]. split; [exact M|].
  destruct (Save_writes_in_place env_disk_full W_saved _ I M) as (_ & _ & P).
  apply (P 0%nat (errors_New "no space left on device") eq_refl).
  intros e' B. rewrite E0 in B. discriminate B.
Defined.

(** C3 on concrete worlds: the same phrase recovered under two passwords,
    on two disks, on two chains. *)
Lemma Recover_deterministic_witness :
  seed (wallet (Recover env0 LedgerLiveNodeKeyPath 3%N mnemonic0 W_fresh).1)
  = seed (wallet (Recover env_wrong_password LedgerLiveNodeKeyPath 3%N mnemonic0 W_fresh').1) /\
  mk (wallet (Recover env0 LedgerLiveNodeKeyPath 3%N mnemonic0 W_fresh).1)
  = mk (wallet (Recover env_wrong_password LedgerLiveNodeKeyPath 3%N mnemonic0 W_fresh').1) /\
  GetNodeKey DeriveNodeKey
    (wallet (Recover env0 LedgerLiveNodeKeyPath 3%N mnemonic0 W_fresh).1)
  = GetNodeKey DeriveNodeKey
      (wallet (Recover env_wrong_password LedgerLiveNodeKeyPath 3%N mnemonic0 W_fresh').1) /\
  GetNodeKey DeriveNodeKey
    (wallet (Recover env0 LedgerLiveNodeKeyPath 3%N mnemonic0 W_fresh).1)
  = GetNodeKey DeriveNodeKey
      (wallet (Initialize env0 LedgerLiveNodeKeyPath 3%N W_fresh').1).
Proof.
  assert ((Initialize env0 LedgerLiveNodeKeyPath 3%N W_fresh').2 = (mnemonic0, None))
    as E3 by (vm_compute; reflexivity).
  assert (bip39_IsMnemonicValid mnemonic0 = true) as V by (vm_compute; reflexivity).
  assert (IsInitialized (wallet W_fresh) = false) as I1 by reflexivity.
  assert (IsInitialized (wallet W_fresh') = false) as I2 by reflexivity.
  assert ((Recover env0 LedgerLiveNodeKeyPath 3%N mnemonic0 W_fresh).2 = None)
    as E1 by (vm_compute; reflexivity).
  assert ((Recover env_wrong_password LedgerLiveNodeKeyPath 3%N mnemonic0 W_fresh').2
          = None) as E2 by (vm_compute; reflexivity).
  destruct (Recover_deterministic (L := libs) DeriveNodeKey env0 env_wrong_password
              W_fresh W_fresh' LedgerLiveNodeKeyPath 3%N mnemonic0
              V I1 I2 eq_refl eq_refl) as (_ & S & M & K & J).
  split; [exact S|]. split; [exact M|]. split; [exact (K E1 E2)|].
  exact (proj2 (proj2 (J env0 E3)) E1).
Defined.

(** C4 fails as stated for every wallet: on an initialized wallet an
    invalid mnemonic is answered with the already-initialized error, which
    is checked first. *)
Lemma Recover_invalid_on_initialized :
  ~ stated_Recover_rejects_invalid env0 W_recovered DefaultNodeKeyPath 0%N
      "not a mnemonic".
Proof.
  assert (bip39_IsMnemonicValid "not a mnemonic" = false) as V
    by (vm_compute; reflexivity).
  assert ((Recover env0 DefaultNodeKeyPath 0%N "not a mnemonic" W_recovered).2
          = Some ErrAlreadyInitialized) as E
    by (vm_compute; reflexivity).
  assert (Some ErrAlreadyInitialized
          <> Some (ErrInvalidMnemonic "not a mnemonic")) as Ne
    by (vm_compute; discriminate).
  unfold stated_Recover_rejects_invalid. intros H.
  pose proof (f_equal snd (H V)) as X. rewrite E in X. exact (Ne X).
Qed.

(** C4 as the code has it: both rejections on an initialized wallet, and
    the invalid mnemonic on a fresh one. *)
Lemma Initialize_Recover_reject_witness :
  Initialize env0 DefaultNodeKeyPath 0%N W_recovered
  = (W_recovered, ("", Some ErrAlreadyInitialized)) /\
  Recover env0 DefaultNodeKeyPath 0%N mnemonic0 W_recovered
  = (W_recovered, Some ErrAlreadyInitialized) /\
  Recover env0 DefaultNodeKeyPath 0%N "not a mnemonic" W_fresh
  = (W_fresh, Some (ErrInvalidMnemonic "not a mnemonic")).
Proof.
  assert (IsInitialized (wallet W_recovered) = true) as I
    by (vm_compute; reflexivity).
  assert (bip39_IsMnemonicValid "not a mnemonic" = false) as V
    by (vm_compute; reflexivity).
  destruct (proj1 (Initialize_Recover_reject env0 W_recovered
                     DefaultNodeKeyPath 0%N mnemonic0) I) as [A B].
  split; [exact A|]. split; [exact B|].
  exact (proj2 (Initialize_Recover_reject env0 W_fresh
                  DefaultNodeKeyPath 0%N "not a mnemonic") eq_refl V).
Defined.

(** C5 fails as stated from every state: a wallet recovered and not yet
    saved has no store file; [Reload] returns no error and the facade is
    still initialized. *)
Lemma Reload_keeps_unsaved_wallet :
  ~ stated_Reload_without_file env0 W_recovered.
Proof.
  assert (disk W_recovered !! walletPath (wallet W_recovered) = None) as N
    by (vm_compute; reflexivity).
  assert (IsInitialized (wallet (Reload env0 W_recovered).1) = true) as I
    by (vm_compute; reflexivity).
  unfold stated_Reload_without_file. intros H.
  destruct (H N) as [_ X]. rewrite I in X. discriminate X.
Qed.

(** C5 as the code has it, on a fresh facade over an empty disk. *)
Lemma Reload_without_file_witness :
  disk W_fresh !! walletPath (wallet W_fresh) = None /\
  Reload env0 W_fresh = (W_fresh, None) /\
  IsInitialized (wallet (Reload env0 W_fresh).1) = false.
Proof.
  assert (disk W_fresh !! walletPath (wallet W_fresh) = None) as N
    by (vm_compute; reflexivity).
  destruct (Reload_without_file env0 W_fresh N) as (_ & R & U & _).
  split; [exact N|]. split; [exact R|]. exact (U eq_refl).
Defined.

(** C6 on a concrete world: a legacy store file without [derivationPath]. *)
Lemma loadStore_legacy_path_witness :
  lacks_field FDerivationPath legacy_members = true /\
  DerivationPath <$> ws (wallet (loadStore env0 W_legacy).1)
  = Some DefaultNodeKeyPath /\
  disk (loadStore env0 W_legacy).1 = disk W_legacy.
Proof.
  assert (disk W_legacy !! walletPath (wallet W_legacy)
          = Some (File FileMode (text doc_legacy))) as H
    by (vm_compute; reflexivity).
  assert (json_parse (text doc_legacy) = inl (JObject legacy_members)) as P
    by (vm_compute; reflexivity).
  assert (lacks_field FDerivationPath legacy_members = true) as K
    by (vm_compute; reflexivity).
  assert ((json_Unmarshal (text doc_legacy) new_localWalletStore).2 = None) as D
    by (vm_compute; reflexivity).
  destruct (loadStore_legacy_path env0 W_legacy _ _ _ H eq_refl P K D)
    as (A & _ & B).
  split; [exact K|]. split; [exact A|exact B].
Defined.

(** C7 fails as stated: a store file that names scheme "rot13", version
    99, loads without any error. *)
Lemma loadStore_accepts_unknown_scheme :
  ~ stated_load_rejects_unknown_scheme env0 W_unknown_scheme.
Proof.
  assert (disk W_unknown_scheme !! walletPath (wallet W_unknown_scheme)
          = Some (File FileMode (text doc_unknown_scheme))) as H
    by (vm_compute; reflexivity).
  assert ((json_Unmarshal (text doc_unknown_scheme) new_localWalletStore).2 = None)
    as D by (vm_compute; reflexivity).
  apply pair_snd_eq in D.
  assert (Name (json_Unmarshal (text doc_unknown_scheme) new_localWalletStore).1
          <> encryptor_Name) as Nn
    by (vm_compute; discriminate).
  assert ((loadStore env0 W_unknown_scheme).2 = (true, None)) as R
    by (vm_compute; reflexivity).
  unfold stated_load_rejects_unknown_scheme. intros C.
  destruct (C _ _ _ H eq_refl D) as [e He].
  - intros [Hn _]. exact (Nn Hn).
  - rewrite R in He. discriminate He.
Qed.

(** C7 as the code has it, on the same world: the load succeeds and keeps
    the name and version it read. *)
Lemma loadStore_ignores_scheme_witness :
  Name <$> ws (wallet (loadStore env0 W_unknown_scheme).1) = Some "rot13" /\
  Version <$> ws (wallet (loadStore env0 W_unknown_scheme).1) = Some 99%N /\
  (loadStore env0 W_unknown_scheme).2 = (true, None).
Proof.
  assert (disk W_unknown_scheme !! walletPath (wallet W_unknown_scheme)
          = Some (File FileMode (text doc_unknown_scheme))) as H
    by (vm_compute; reflexivity).
  assert ((json_Unmarshal (text doc_unknown_scheme) new_localWalletStore).2 = None)
    as D by (vm_compute; reflexivity).
  apply pair_snd_eq in D.
  assert (Name (json_Unmarshal (text doc_unknown_scheme) new_localWalletStore).1
          = "rot13") as Nn
    by (vm_compute; reflexivity).
  assert (Version (json_Unmarshal (text doc_unknown_scheme) new_localWalletStore).1
          = 99%N) as Nv
    by (vm_compute; reflexivity).
  assert ((loadStore env0 W_unknown_scheme).2 = (true, None)) as R
    by (vm_compute; reflexivity).
  destruct (loadStore_ignores_scheme env0 W_unknown_scheme _ _ _ "hunter2"
              H eq_refl D eq_refl) as (A & B & _ & _).
  rewrite Nn in A. rewrite Nv in B.
  split; [exact A|]. split; [exact B|exact R].
Defined.

(** C10 on a concrete world: [TestRecovery] on a wallet that is
    initialized, saved and in use. *)
Lemma TestRecovery_overwrites_witness :
  IsInitialized (wallet W_in_use) = true /\
  (TestRecovery env0 DefaultNodeKeyPath 0%N mnemonic0 W_in_use).2 = None /\
  ws (wallet (TestRecovery env0 DefaultNodeKeyPath 0%N mnemonic0 W_in_use).1)
  = Some (mkStore None encryptor_Name encryptor_Version (uuid_New env0)
            DefaultNodeKeyPath 0%N 0%N) /\
  seed (wallet (TestRecovery env0 DefaultNodeKeyPath 0%N mnemonic0 W_in_use).1)
  = Some (bip39_NewSeed mnemonic0 "").
Proof.
  assert (IsInitialized (wallet W_in_use) = true) as I
    by (vm_compute; reflexivity).
  assert (bip39_IsMnemonicValid mnemonic0 = true) as V
    by (vm_compute; reflexivity).
  assert ((hdkeychain_NewMaster (bip39_NewSeed mnemonic0 "")).2 = None) as M
    by (vm_compute; reflexivity).
  apply pair_snd_eq in M.
  destruct (TestRecovery_overwrites env0 W_in_use DefaultNodeKeyPath 0%N
              mnemonic0 _ V M) as (R & S & _ & X & _).
  split; [exact I|]. split; [exact (f_equal snd R)|].
  split; [exact X|exact S].
Defined.

(** * Further properties of the lifecycle *)

Section Lifecycle.
Context `{L : Libraries}.
Implicit Types (env : Env L) (W : World L) (w : LocalWallet L).

Ltac run_op :=
  unfold mbind, mret, Op_bind, Op_ret, get_wallet, get_disk, put_disk,
    modify_ws, modify_wallet; cbn [fst snd disk wallet].








(** ** Save, then load *)

Lemma Save_ok env W :
  (Save env W).2 = None ->
  IsInitialized (wallet W) = true /\
  exists data,
    json_Marshal (ws (wallet W)) = (data, None) /\
    disk (Save env W).1
    = <[walletPath (wallet W) :=
          File (opened_perm (disk W) (walletPath (wallet W)) FileMode) data]>
        (disk W).
Proof.
  unfold Save. run_op.
  destruct (IsInitialized (wallet W)); cbn; [|discriminate].
  destruct (json_Marshal _) as [data [e|]]; cbn; [discriminate|].
  pose proof (os_WriteFile_cases env (disk W) (walletPath (wallet W)) data
                FileMode) as C.
  destruct (os_WriteFile _ _ _ _ _) as [d' [e|]]; cbn in *; [discriminate|].
  intros _. split; [reflexivity|]. now exists data.
Qed.

Lemma Save_wallet env W : wallet (Save env W).1 = wallet W.
Proof.
  unfold Save. run_op.
  destruct (IsInitialized (wallet W)); cbn; [|reflexivity].
  destruct (json_Marshal _) as [data [e|]]; cbn; [reflexivity|].
  now destruct (os_WriteFile _ _ _ _ _) as [d' [e|]].
Qed.



(** ** What the load reports *)

Lemma loadStore_cases env W :
  (exists e, (os_ReadFile env (disk W) (walletPath (wallet W))).2 = Some e /\
             loadStore env W = (W, (false, None))) \/
  ((os_ReadFile env (disk W) (walletPath (wallet W))).2 = None /\
   exists e, (loadStore env W).2 = (false, Some e)) \/
  ((os_ReadFile env (disk W) (walletPath (wallet W))).2 = None /\
   exists s password sd k,
     encryptor_Decrypt (Crypto s) password = (sd, None) /\
     hdkeychain_NewMaster (default [] sd) = (k, None) /\
     loadStore env W
     = (mkWorld (disk W) (with_mk k (with_seed sd (with_ws (Some s) (wallet W)))),
        (true, None))).
Proof.
  unfold loadStore. run_op.
  destruct (os_ReadFile _ _ _) as [data [e|]]; cbn.
  { left. exists e. split; reflexivity. }
  right.
  destruct (json_Unmarshal _ _) as [s [e|]]; cbn.
  { left. split; [reflexivity|]. now eexists. }
  assert (exists s', (if String.eqb (DerivationPath s) ""
                      then with_DerivationPath DefaultNodeKeyPath s else s) = s'
                     /\ Crypto s' = Crypto s) as (s' & Es & Ec).
  { destruct (String.eqb _ _); eexists; split; reflexivity. }
  destruct (GetPassword env) as [password [e|]] eqn:P.
  { left. split; [reflexivity|].
    destruct (String.eqb _ _); cbn; now eexists. }
  destruct (encryptor_Decrypt (Crypto s) password) as [sd [e|]] eqn:C.
  { left. split; [reflexivity|].
    destruct (String.eqb _ _); cbn; rewrite C; cbn; now eexists. }
  destruct (hdkeychain_NewMaster (default [] sd)) as [k [e|]] eqn:M.
  { left. split; [reflexivity|].
    destruct (String.eqb _ _); cbn; rewrite C; cbn; rewrite M; cbn; now eexists. }
  right. split; [reflexivity|]. exists s', password, sd, k. rewrite Ec.
  split; [exact C|]. split; [exact M|].
  subst s'. destruct (String.eqb _ _); cbn; rewrite C; cbn; rewrite M; reflexivity.
Qed.

(** X3. When [loadStore] or [GetInitialized] reports [true] it reports no
    error, and the facade is initialized, provided the encryptor and the
    master-key constructor never return nil without an error. *)
Theorem GetInitialized_true env W :
  (forall c password sd, encryptor_Decrypt c password = (sd, None) -> sd <> None) ->
  (forall sd k, hdkeychain_NewMaster sd = (k, None) -> k <> None) ->
  ((loadStore env W).2.1 = true ->
   (loadStore env W).2.2 = None /\
   IsInitialized (wallet (loadStore env W).1) = true) /\
  ((GetInitialized env W).2.1 = true ->
   (GetInitialized env W).2.2 = None /\
   IsInitialized (wallet (GetInitialized env W).1) = true).
Proof.
  intros Hd Hk.
  assert ((loadStore env W).2.1 = true ->
          (loadStore env W).2.2 = None /\
          IsInitialized (wallet (loadStore env W).1) = true) as Hl.
  { destruct (loadStore_cases env W)
      as [(e & _ & E)|[(_ & e & E)|(_ & s & p & sd & k & C & M & E)]];
      rewrite E; cbn; try discriminate.
    intros _. split; [reflexivity|].
    apply Hd in C. apply Hk in M. unfold IsInitialized. cbn.
    destruct sd; [|congruence]. destruct k; [|congruence]. reflexivity. }
  split; [exact Hl|].
  unfold GetInitialized. run_op.
  destruct (IsInitialized (wallet W)) eqn:I; cbn; [now split|exact Hl].
Qed.

(** X4. [loadStore] reports "not loaded, no error" exactly when the store
    file cannot be read, whatever the reason (no file, no access, a failed
    read), and then it has changed nothing. *)
Theorem loadStore_not_loaded env W :
  ((loadStore env W).2 = (false, None) <->
   (os_ReadFile env (disk W) (walletPath (wallet W))).2 <> None) /\
  ((loadStore env W).2 = (false, None) -> loadStore env W = (W, (false, None))).
Proof.
  destruct (loadStore_cases env W)
    as [(e & R & E)|[(R & e & E)|(R & s & p & sd & k & _ & _ & E)]];
    rewrite E, R; cbn.
  - split; [|reflexivity]. split; congruence.
  - split; [|discriminate]. split; [discriminate|congruence].
  - split; [|discriminate]. split; [discriminate|congruence].
Qed.

(** ** Save *)

(** X5. [String] and [Save] agree: when [Save] reports no error, the store
    file holds exactly the bytes of the string [String] returns, and
    [String] reports no error either. *)
Theorem String_is_what_Save_writes env W :
  (Save env W).2 = None ->
  (String_ (wallet W)).2 = None /\
  exists perm,
    disk (Save env W).1 !! walletPath (wallet W)
    = Some (File perm (list_byte_of_string (String_ (wallet W)).1)).
Proof.
  intros Sv. destruct (Save_ok _ _ Sv) as (I & data & M & D).
  unfold String_. rewrite I, M. cbn [negb fst snd]. split; [reflexivity|].
  eexists. rewrite D, lookup_insert_eq, list_byte_of_string_of_list_byte.
  reflexivity.
Qed.

Lemma os_WriteFile_other env (d : gmap string fentry) name data perm q :
  q <> name -> (os_WriteFile env d name data perm).1 !! q = d !! q.
Proof.
  intros Ne.
  pose proof (os_WriteFile_cases env d name data perm) as C.
  destruct ((os_WriteFile env d name data perm).2);
    [destruct C as [-> | [n ->]]|rewrite C]; try reflexivity;
    now apply lookup_insert_ne.
Qed.

(** X6. [Save] never changes the facade and never touches a path other
    than the wallet's.  On a wallet that is not initialized it fails with
    the not-initialized error, and when the store cannot be encoded it
    fails with the encoding error; in both cases nothing is written. *)
Theorem Save_frame env W :
  wallet (Save env W).1 = wallet W /\
  (forall q, q <> walletPath (wallet W) ->
             disk (Save env W).1 !! q = disk W !! q) /\
  (IsInitialized (wallet W) = false ->
   Save env W = (W, Some ErrNotInitialized)) /\
  (forall data e,
     IsInitialized (wallet W) = true ->
     json_Marshal (ws (wallet W)) = (data, Some e) ->
     Save env W = (W, Some (Errorf_w "Could not encode wallet" e))).
Proof.
  split; [apply Save_wallet|]. split; [|split].
  - intros q Ne. unfold Save. run_op.
    destruct (IsInitialized (wallet W)); cbn; [|reflexivity].
    destruct (json_Marshal _) as [data [e|]]; cbn; [reflexivity|].
    pose proof (os_WriteFile_other env (disk W) (walletPath (wallet W)) data
                  FileMode q Ne) as O.
    now destruct (os_WriteFile _ _ _ _ _) as [d' [e|]].
  - intros I. unfold Save. run_op. now rewrite I.
  - intros data e I M. unfold Save. run_op. now rewrite I, M.
Qed.


(** ** Failures that leave the facade half-way *)


(** X9. A [Recover] that fails after the mnemonic check (the password
    cannot be had, or the encryptor refuses) has already replaced the seed
    and the master key by those of the mnemonic and has not touched the
    store record: a facade that held a store record but no seed reports
    initialized after the failed call. *)
Theorem Recover_failure_keeps_keys env W derivationPath walletIndex mnemonic k :
  IsInitialized (wallet W) = false ->
  bip39_IsMnemonicValid mnemonic = true ->
  hdkeychain_NewMaster (bip39_NewSeed mnemonic "") = (k, None) ->
  (Recover env derivationPath walletIndex mnemonic W).2 <> None ->
  (exists e,
     (Recover env derivationPath walletIndex mnemonic W).2
     = Some (Errorf_w "Could not get wallet password" e) \/
     (Recover env derivationPath walletIndex mnemonic W).2
     = Some (Errorf_w "Could not encrypt wallet seed" e)) /\
  (Recover env derivationPath walletIndex mnemonic W).1
  = mkWorld (disk W)
      (with_mk k (with_seed (Some (bip39_NewSeed mnemonic "")) (wallet W))) /\
  IsInitialized (wallet (Recover env derivationPath walletIndex mnemonic W).1)
  = not_nil (ws (wallet W)) && not_nil k.
Proof.
  intros I V M. rewrite Recover_initializeStore by assumption.
  unfold initializeStore. run_op. rewrite M. cbn.
  destruct (GetPassword env) as [password [e|]]; cbn.
  { intros _. split; [exists e; now left|]. split; [reflexivity|].
    unfold IsInitialized. cbn. now rewrite andb_true_r. }
  destruct (encryptor_Encrypt _ _ _) as [c [e|]]; cbn; [|congruence].
  intros _. split; [exists e; now right|]. split; [reflexivity|].
  unfold IsInitialized. cbn. now rewrite andb_true_r.
Qed.

(** X10. [Initialize] is [Recover] with the mnemonic it draws: when
    [Initialize] succeeds and the mnemonic it returns passes the check,
    [Recover] with that mnemonic, in the same world and from the same
    state, succeeds and ends in the same world. *)
Theorem Initialize_as_Recover env W derivationPath walletIndex mnemonic :
  (Initialize env derivationPath walletIndex W).2 = (mnemonic, None) ->
  bip39_IsMnemonicValid mnemonic = true ->
  Recover env derivationPath walletIndex mnemonic W
  = ((Initialize env derivationPath walletIndex W).1, None).
Proof.
  intros E V.
  assert (IsInitialized (wallet W) = false) as I.
  { revert E. unfold Initialize. run_op.
    destruct (IsInitialized (wallet W)); cbn; [discriminate|reflexivity]. }
  destruct (Initialize_initializeStore _ _ _ _ _ E) as [-> O].
  rewrite (Recover_initializeStore _ _ _ _ _ I V).
  now apply pair_snd_eq.
Qed.

(** X11. [TestRecovery] followed by [Save]: after a successful
    [TestRecovery] the facade counts as initialized, so [Save] is not
    refused, and what it encodes is a store whose [crypto] member is
    [null]: the file it writes holds no encrypted seed. *)
Theorem TestRecovery_then_Save env1 env2 W derivationPath walletIndex mnemonic k :
  bip39_IsMnemonicValid mnemonic = true ->
  hdkeychain_NewMaster (bip39_NewSeed mnemonic "") = (Some k, None) ->
  let W1 := (TestRecovery env1 derivationPath walletIndex mnemonic W).1 in
  IsInitialized (wallet W1) = true /\
  (exists rest,
     json_Marshal (ws (wallet W1))
     = json_text (JObject ((tag FCrypto, JNull) :: rest))) /\
  (forall data,
     json_Marshal (ws (wallet W1)) = (data, None) ->
     write_fault env2 = WriteCompletes ->
     (forall e, disk W !! walletPath (wallet W) <> Some (Unreachable e)) ->
     (Save env2 W1).2 = None /\
     exists perm,
       disk (Save env2 W1).1 !! walletPath (wallet W) = Some (File perm data)).
Proof.
  intros V M W1.
  assert (W1 = mkWorld (disk W)
                 (with_ws (Some (mkStore None encryptor_Name encryptor_Version
                                   (uuid_New env1) derivationPath walletIndex 0%N))
                    (with_mk (Some k)
                       (with_seed (Some (bip39_NewSeed mnemonic "")) (wallet W)))))
    as E.
  { subst W1. unfold TestRecovery. run_op. now rewrite V, M. }
  rewrite E. cbn [wallet disk].
  split; [reflexivity|]. split.
  - eexists. unfold json_Marshal. cbn [ws with_ws]. unfold encode_store.
    cbn [Crypto app]. reflexivity.
  - intros data Mj Wf Hr. unfold Save. run_op.
    change (IsInitialized _) with true. cbn [negb].
    rewrite Mj. cbn. unfold os_WriteFile. rewrite Wf.
    destruct (disk W !! walletPath (wallet W)) as [[e|p old]|] eqn:D; cbn.
    + now destruct (Hr e).
    + split; [reflexivity|]. eexists. apply lookup_insert_eq.
    + split; [reflexivity|]. eexists. apply lookup_insert_eq.
Qed.

(** ** What the methods never touch *)

Lemma same_caches_refl w : same_caches w w.
Proof. now repeat split. Qed.

Lemma initializeStore_frame env derivationPath walletIndex mnemonic W :
  disk (initializeStore env derivationPath walletIndex mnemonic W).1 = disk W /\
  same_caches (wallet W)
    (wallet (initializeStore env derivationPath walletIndex mnemonic W).1).
Proof.
  unfold initializeStore. run_op.
  destruct (hdkeychain_NewMaster _) as [k [e|]]; cbn; [now repeat split|].
  destruct (GetPassword env) as [password [e|]]; cbn; [now repeat split|].
  destruct (encryptor_Encrypt _ _ _) as [c [e|]]; cbn; now repeat split.
Qed.

Lemma loadStore_frame env W :
  same_caches (wallet W) (wallet (loadStore env W).1).
Proof.
  unfold loadStore. run_op.
  destruct (os_ReadFile _ _ _) as [data [e|]]; [apply same_caches_refl|].
  destruct (json_Unmarshal _ _) as [s [e|]]; cbn; [now repeat split|].
  destruct (String.eqb (DerivationPath s) ""); cbn;
    destruct (GetPassword env) as [password [e|]]; cbn; try (now repeat split);
    destruct (encryptor_Decrypt _ password) as [sd [e|]]; cbn;
    try (now repeat split);
    destruct (hdkeychain_NewMaster _) as [k [e|]]; now repeat split.
Qed.

(** X12. No lifecycle method ever clears or refreshes a cache.
    [Initialize], [Recover], [TestRecovery], [Reload] and [GetInitialized],
    whatever they return, leave the node-key cache, the validator-key
    cache, the keystore registry, the path, the chain and the gas settings
    of the facade as they were: a node key cached for one seed is still
    cached after the seed has been replaced. *)
Theorem lifecycle_keeps_caches env W derivationPath walletIndex mnemonic :
  same_caches (wallet W) (wallet (Initialize env derivationPath walletIndex W).1) /\
  same_caches (wallet W)
    (wallet (Recover env derivationPath walletIndex mnemonic W).1) /\
  same_caches (wallet W)
    (wallet (TestRecovery env derivationPath walletIndex mnemonic W).1) /\
  same_caches (wallet W) (wallet (Reload env W).1) /\
  same_caches (wallet W) (wallet (GetInitialized env W).1).
Proof.
  split; [|split; [|split; [|split]]].
  - unfold Initialize. run_op.
    destruct (IsInitialized (wallet W)); cbn; [apply same_caches_refl|].
    destruct (NewEntropy env EntropyBits) as [entropy [e|]]; cbn;
      [apply same_caches_refl|].
    destruct (bip39_NewMnemonic entropy) as [m [e|]]; cbn;
      [apply same_caches_refl|].
    pose proof (initializeStore_frame env derivationPath walletIndex m W) as [_ F].
    now destruct (initializeStore _ _ _ _ W) as [W' [e|]].
  - unfold Recover. run_op.
    destruct (IsInitialized (wallet W)); cbn; [apply same_caches_refl|].
    destruct (bip39_IsMnemonicValid mnemonic); cbn; [|apply same_caches_refl].
    pose proof (initializeStore_frame env derivationPath walletIndex mnemonic W)
      as [_ F].
    now destruct (initializeStore _ _ _ _ W) as [W' [e|]].
  - unfold TestRecovery. run_op.
    destruct (bip39_IsMnemonicValid mnemonic); cbn; [|apply same_caches_refl].
    destruct (hdkeychain_NewMaster _) as [k [e|]]; now repeat split.
  - rewrite Reload_loadStore. apply loadStore_frame.
  - unfold GetInitialized. run_op.
    destruct (IsInitialized (wallet W)); [apply same_caches_refl|].
    apply loadStore_frame.
Qed.

(** X13. Only [Save] and [Delete] touch the disk. [Initialize], [Recover],
    [TestRecovery], [Reload], [GetInitialized] and [AddKeystore] leave it
    as it was, whatever they return. *)
Theorem in_memory_methods_leave_disk env W derivationPath walletIndex mnemonic
    name ks :
  disk (Initialize env derivationPath walletIndex W).1 = disk W /\
  disk (Recover env derivationPath walletIndex mnemonic W).1 = disk W /\
  disk (TestRecovery env derivationPath walletIndex mnemonic W).1 = disk W /\
  disk (Reload env W).1 = disk W /\
  disk (GetInitialized env W).1 = disk W /\
  disk (AddKeystore name ks W).1 = disk W.
Proof.
  split; [|split; [|split; [|split; [|split]]]].
  - unfold Initialize. run_op.
    destruct (IsInitialized (wallet W)); cbn; [reflexivity|].
    destruct (NewEntropy env EntropyBits) as [entropy [e|]]; cbn; [reflexivity|].
    destruct (bip39_NewMnemonic entropy) as [m [e|]]; cbn; [reflexivity|].
    pose proof (initializeStore_frame env derivationPath walletIndex m W) as [F _].
    now destruct (initializeStore _ _ _ _ W) as [W' [e|]].
  - unfold Recover. run_op.
    destruct (IsInitialized (wallet W)); cbn; [reflexivity|].
    destruct (bip39_IsMnemonicValid mnemonic); cbn; [|reflexivity].
    pose proof (initializeStore_frame env derivationPath walletIndex mnemonic W)
      as [F _].
    now destruct (initializeStore _ _ _ _ W) as [W' [e|]].
  - unfold TestRecovery. run_op.
    destruct (bip39_IsMnemonicValid mnemonic); cbn; [|reflexivity].
    now destruct (hdkeychain_NewMaster _) as [k [e|]].
  - rewrite Reload_loadStore. apply loadStore_disk.
  - unfold GetInitialized. run_op.
    destruct (IsInitialized (wallet W)); [reflexivity|]. apply loadStore_disk.
  - reflexivity.
Qed.

(** ** The constructor *)

(** X14. [NewLocalWallet] never writes to the disk and returns either a
    facade or an error, never both and never neither: an error exactly
    when the load of the store file reports one.  The facade it returns
    has the given path, empty node-key and validator-key caches, an empty
    keystore registry, and the chain ID converted through [int64]: the
    given number below 2^63, a negative number from there on. *)
Theorem NewLocalWallet_result env (d : gmap string fentry) path chainId fee
    priorityFee gas :
  let r := NewLocalWallet env d path chainId fee priorityFee gas in
  r.1 = d /\
  match r.2 with
  | (Some w, None) =>
      walletPath w = path /\ nodeKey w = None /\ validatorKeys w = ∅ /\
      keystores w = ∅ /\
      ((Z.of_N chainId < 2 ^ 63)%Z -> GetChainID w = Z.of_N chainId) /\
      ((2 ^ 63 <= Z.of_N chainId <= uint_max)%Z -> (GetChainID w < 0)%Z)
  | (None, Some e) =>
      exists w0, walletPath w0 = path /\ (loadStore env (mkWorld d w0)).2.2 = Some e
  | _ => False
  end.
Proof.
  intros r. subst r. unfold NewLocalWallet.
  set (w0 := mkWallet _ _ _ _ _ _ _ _ _ _ _ _).
  pose proof (loadStore_disk env (mkWorld d w0)) as D.
  pose proof (loadStore_frame env (mkWorld d w0)) as F.
  destruct (loadStore env (mkWorld d w0)) as [W' [b [e|]]] eqn:E; cbn in *.
  - split; [exact D|]. exists w0. rewrite E. now split.
  - split; [exact D|].
    destruct F as (P & C & K & _ & V & Ks & _).
    rewrite P, K, V, Ks. repeat split; unfold GetChainID; rewrite C; cbn;
      unfold int64_of_uint.
    + intros B. apply Z.ltb_lt in B. now rewrite B.
    + intros [B1 B2]. unfold uint_max in B2.
      destruct (Z.ltb_spec (Z.of_N chainId) (2 ^ 63)); lia.
Qed.

(** X15. [Save], then [Delete]: when both succeed, the store file is gone
    again, every other path is as it was before the [Save], and the facade
    is as it was. *)
Theorem Save_then_Delete env1 env2 W :
  (Save env1 W).2 = None ->
  (Delete env2 (Save env1 W).1).2 = None ->
  disk (Delete env2 (Save env1 W).1).1 = delete (walletPath (wallet W)) (disk W) /\
  wallet (Delete env2 (Save env1 W).1).1 = wallet W.
Proof.
  intros Sv Dl. destruct (Save_ok _ _ Sv) as (_ & data & _ & D).
  pose proof (Save_wallet env1 W) as Ww.
  rewrite Delete_wallet, Ww. split; [|reflexivity].
  revert Dl. unfold Delete. run_op. rewrite Ww, D.
  unfold os_Stat, os_Remove. rewrite lookup_insert_eq.
  destruct (remove_fault env2); cbn; [discriminate|].
  intros _. apply delete_insert_eq.
Qed.
End Lifecycle.

(** ** Signing *)
Section SigningProperties.
Context `{L : Libraries}.
Variable getNodePrivateKey : Op (option PrivateKey * string * option error).
Variable accounts_TextHash : list byte -> list byte.
Variable crypto_Sign :
  list byte -> option PrivateKey -> option (list byte) * option error.

Lemma byte_add_to_N v n :
  Byte.to_N (byte_add v n) = ((Byte.to_N v + n) mod 256)%N.
Proof.
  unfold byte_add.
  destruct (Byte.of_N ((Byte.to_N v + n) mod 256)) as [b|] eqn:E; cbn.
  - now apply Byte.to_of_N.
  - apply Byte.of_N_None_iff in E.
    pose proof (N.mod_upper_bound (Byte.to_N v + n) 256). lia.
Qed.

(** X16. The recovery byte of [SignMessage]. When the node key is there
    and the signer returns a 65-byte signature, [SignMessage] returns 65
    bytes: the first 64 are the signer's, and the last is the signer's
    recovery id plus 27 (modulo 256), so an id of 0 or 1 comes out as 27
    or 28.  A signature shorter than 65 bytes makes the call panic; an
    error of the key lookup is passed on as it is, and an error of the
    signer is wrapped as "Error signing message". *)
Theorem SignMessage_recovery_byte (W : World L) message :
  let r := getNodePrivateKey W in
  let s := crypto_Sign (accounts_TextHash (list_byte_of_string message)) r.2.1.1 in
  (forall e, r.2.2 = Some e ->
     SignMessage getNodePrivateKey accounts_TextHash crypto_Sign message W
     = (r.1, Returns (None, Some e))) /\
  (forall e, r.2.2 = None -> s.2 = Some e ->
     SignMessage getNodePrivateKey accounts_TextHash crypto_Sign message W
     = (r.1, Returns (None, Some (Errorf_w "Error signing message" e)))) /\
  (forall sig, r.2.2 = None -> s = (Some sig, None) -> (length sig <= 64)%nat ->
     SignMessage getNodePrivateKey accounts_TextHash crypto_Sign message W
     = (r.1, Panics "index out of range [64]")) /\
  (forall sig, r.2.2 = None -> s = (Some sig, None) -> length sig = 65%nat ->
     exists out v,
       SignMessage getNodePrivateKey accounts_TextHash crypto_Sign message W
       = (r.1, Returns (Some out, None)) /\
       length out = 65%nat /\
       take 64 out = take 64 sig /\
       sig !! 64%nat = Some v /\
       out !! 64%nat = Some (byte_add v 27) /\
       Byte.to_N (byte_add v 27) = ((Byte.to_N v + 27) mod 256)%N /\
       ((Byte.to_N v <= 1)%N -> Byte.to_N (byte_add v 27) = (Byte.to_N v + 27)%N)).
Proof.
  intros r s. subst r s. unfold SignMessage.
  unfold mbind, mret, Op_bind, Op_ret.
  destruct (getNodePrivateKey W) as [W1 [[key path] err]]. cbn [fst snd].
  split; [|split; [|split]].
  - intros e ->. reflexivity.
  - intros e -> Hs.
    destruct (crypto_Sign _ key) as [sg se]. cbn in Hs. now subst se.
  - intros sig -> -> Hl. cbv beta iota zeta.
    change (default [] (Some sig)) with sig.
    rewrite (proj2 (lookup_ge_None sig RecoveryIDOffset)); [reflexivity|].
    unfold RecoveryIDOffset. lia.
  - intros sig -> -> Hl. cbv beta iota zeta.
    change (default [] (Some sig)) with sig.
    destruct (sig !! RecoveryIDOffset) as [v|] eqn:Ev.
    2:{ apply lookup_ge_None in Ev. unfold RecoveryIDOffset in Ev. lia. }
    exists (<[RecoveryIDOffset := byte_add v 27]> sig), v.
    split; [reflexivity|].
    split; [now rewrite length_insert|].
    split; [apply take_insert_ge; unfold RecoveryIDOffset; lia|].
    split; [exact Ev|].
    split; [apply list_lookup_insert_eq; unfold RecoveryIDOffset; lia|].
    split; [apply byte_add_to_N|].
    intros B. rewrite byte_add_to_N. apply N.mod_small. lia.
Qed.
End SigningProperties.

(** * The further properties on concrete worlds *)



(** X3 for the stand-in libraries, on a fresh facade over the saved file. *)
Lemma GetInitialized_true_witness :
  (loadStore env0 (mkWorld (disk W_saved) w_fresh)).2.1 = true /\
  IsInitialized (wallet (loadStore env0 (mkWorld (disk W_saved) w_fresh)).1) = true.
Proof.
  assert ((loadStore env0 (mkWorld (disk W_saved) w_fresh)).2.1 = true) as T
    by (vm_compute; reflexivity).
  split; [exact T|].
  refine (proj2 (proj1 (GetInitialized_true env0 (mkWorld (disk W_saved) w_fresh)
                          _ _) T)).
  - intros c password sd. change (@encryptor_Decrypt libs) with Decrypt.
    unfold Decrypt.
    destruct (c ≫= _) as [[]|]; try (intros [= <-]; discriminate);
      destruct (c ≫= _) as [[]|]; try (intros [= <-]; discriminate);
      destruct (String.eqb _ _); intros [= <-]; discriminate.
  - intros sd k. change (@hdkeychain_NewMaster libs) with NewMaster.
    unfold NewMaster. destruct (_ && _); intros [= <-]; discriminate.
Defined.

(** X5 on the recovered wallet. *)
Lemma String_is_what_Save_writes_witness :
  (String_ (wallet W_recovered)).2 = None /\
  exists perm,
    disk (Save env0 W_recovered).1 !! walletPath (wallet W_recovered)
    = Some (File perm (list_byte_of_string (String_ (wallet W_recovered)).1)).
Proof.
  assert ((Save env0 W_recovered).2 = None) as Sv by (vm_compute; reflexivity).
  exact (String_is_what_Save_writes env0 W_recovered Sv).
Defined.



(** X9 on the locked wallet: [Recover] fails for want of a password and
    the wallet reports initialized afterwards. *)
Lemma Recover_failure_keeps_keys_witness :
  IsInitialized (wallet W_locked) = false /\
  (Recover env_no_password DefaultNodeKeyPath 0%N mnemonic0 W_locked).2 <> None /\
  IsInitialized
    (wallet (Recover env_no_password DefaultNodeKeyPath 0%N mnemonic0 W_locked).1)
  = true.
Proof.
  assert (IsInitialized (wallet W_locked) = false) as I
    by (vm_compute; reflexivity).
  assert (bip39_IsMnemonicValid mnemonic0 = true) as V by (vm_compute; reflexivity).
  assert ((hdkeychain_NewMaster (bip39_NewSeed mnemonic0 "")).2 = None) as M
    by (vm_compute; reflexivity).
  apply pair_snd_eq in M.
  assert ((Recover env_no_password DefaultNodeKeyPath 0%N mnemonic0 W_locked).2
          <> None) as E
    by (vm_compute; discriminate).
  assert (not_nil (ws (wallet W_locked))
          && not_nil (hdkeychain_NewMaster (bip39_NewSeed mnemonic0 "")).1 = true)
    as B by (vm_compute; reflexivity).
  destruct (Recover_failure_keeps_keys env_no_password W_locked DefaultNodeKeyPath
              0%N mnemonic0 _ I V M E) as (_ & _ & K).
  split; [exact I|]. split; [exact E|]. exact (eq_trans K B).
Defined.

(** X10 on a fresh facade. *)
Lemma Initialize_as_Recover_witness :
  Recover env0 LedgerLiveNodeKeyPath 3%N mnemonic0 W_fresh
  = ((Initialize env0 LedgerLiveNodeKeyPath 3%N W_fresh).1, None).
Proof.
  assert ((Initialize env0 LedgerLiveNodeKeyPath 3%N W_fresh).2 = (mnemonic0, None))
    as E by (vm_compute; reflexivity).
  assert (bip39_IsMnemonicValid mnemonic0 = true) as V by (vm_compute; reflexivity).
  exact (Initialize_as_Recover env0 W_fresh LedgerLiveNodeKeyPath 3%N mnemonic0 E V).
Defined.

(** X11 on a fresh facade. *)
Lemma TestRecovery_then_Save_witness :
  IsInitialized
    (wallet (TestRecovery env0 DefaultNodeKeyPath 0%N mnemonic0 W_fresh).1) = true /\
  exists rest,
    json_Marshal
      (ws (wallet (TestRecovery env0 DefaultNodeKeyPath 0%N mnemonic0 W_fresh).1))
    = json_text (JObject ((tag FCrypto, JNull) :: rest)).
Proof.
  assert (bip39_IsMnemonicValid mnemonic0 = true) as V by (vm_compute; reflexivity).
  assert (hdkeychain_NewMaster (bip39_NewSeed mnemonic0 "")
          = (Some (x04 :: NewSeed mnemonic0 ""), None)) as M
    by (vm_compute; reflexivity).
  destruct (TestRecovery_then_Save env0 env0 W_fresh DefaultNodeKeyPath 0%N
              mnemonic0 _ V M) as (I & J & _).
  split; [exact I|exact J].
Defined.

(** X15 on the recovered wallet. *)
Lemma Save_then_Delete_witness :
  disk (Delete env0 (Save env0 W_recovered).1).1
  = delete (walletPath (wallet W_recovered)) (disk W_recovered) /\
  wallet (Delete env0 (Save env0 W_recovered).1).1 = wallet W_recovered.
Proof.
  assert ((Save env0 W_recovered).2 = None) as Sv by (vm_compute; reflexivity).
  assert ((Delete env0 (Save env0 W_recovered).1).2 = None) as Dl
    by (vm_compute; reflexivity).
  exact (Save_then_Delete env0 env0 W_recovered Sv Dl).
Defined.

(** X16 with the stand-in signer: recovery id 1 comes out as 28. *)
Lemma SignMessage_recovery_byte_witness :
  exists out,
    SignMessage getNodePrivateKey TextHash Sign "hello" W_in_use
    = ((getNodePrivateKey W_in_use).1, Returns (Some out, None)) /\
    length out = 65%nat /\
    out !! 64%nat = Some x1c.
Proof.
  assert ((getNodePrivateKey W_in_use).2.2 = None) as K by reflexivity.
  assert (Sign (TextHash (list_byte_of_string "hello"))
            (getNodePrivateKey W_in_use).2.1.1
          = (Some (default [] (Sign (TextHash (list_byte_of_string "hello"))
                                 (getNodePrivateKey W_in_use).2.1.1).1), None))
    as S by (vm_compute; reflexivity).
  assert (length (default [] (Sign (TextHash (list_byte_of_string "hello"))
                                (getNodePrivateKey W_in_use).2.1.1).1) = 65%nat)
    as Ln by (vm_compute; reflexivity).
  assert (default [] (Sign (TextHash (list_byte_of_string "hello"))
                        (getNodePrivateKey W_in_use).2.1.1).1 !! 64%nat = Some x01)
    as V1 by (vm_compute; reflexivity).
  assert (byte_add x01 27 = x1c) as B by (vm_compute; reflexivity).
  destruct (proj2 (proj2 (proj2
              (SignMessage_recovery_byte getNodePrivateKey TextHash Sign
                 W_in_use "hello"))) _ K S Ln)
    as (out & v & E & Lo & _ & Sv & Ov & _).
  exists out. split; [exact E|]. split; [exact Lo|].
  rewrite V1 in Sv. injection Sv as <-. rewrite B in Ov. exact Ov.
Defined.
